(** * Todo-API: the request pipeline of [main.py] over an explicit store

    [main.py] is a FastAPI service over two SQLite tables, [users] and
    [todos].  Every handler opens a connection, runs one or two SQL
    statements and commits.  The development below threads the database
    as an explicit value: a handler maps the committed database and its
    arguments to a response and the database committed when it returns.

    Boundaries of the model.
    - The store is the relational store the schema of [init_db] describes:
      tables are lists of rows in rowid order, the primary keys are
      AUTOINCREMENT integers, the UNIQUE constraints of [users] are
      enforced by the INSERT.  The integers of the store are unbounded
      ([Z]): rowids and counters beyond SQLite's 64-bit range are outside
      the model.  An integer that a request supplies is bound into a
      statement only if it is a signed 64-bit integer; [sqlite3] raises
      [OverflowError] otherwise.  Foreign keys are not enforced (SQLite's
      default).
    - [secrets.token_urlsafe(32)] and [CURRENT_TIMESTAMP] are inputs of
      the handler that draws them ([token], [now]).
    - A JSON body is given per field as absent, null or a string; pydantic
      turns it into the model class of the handler or rejects it.
    - [api_key] is the value the [APIKeyHeader] scheme hands to
      [get_current_user]; a request the scheme itself turns away (no
      [X-API-Key] header) does not reach the code of [main.py].
    - Requests are served one after the other: the handlers are [async]
      functions without an [await], so each runs to its end once started. *)

From Stdlib Require Import ZArith List String Bool Lia.
Import ListNotations.
Open Scope string_scope.
Open Scope list_scope.
Open Scope Z_scope.

(** ** The store *)

(** A row of [users]: id, name, email, api_key, created_at. *)
Record user_row := mk_user {
  u_id : Z;
  u_name : string;
  u_email : string;
  u_api_key : string;
  u_created_at : string
}.

(** A row of [todos]: id, title, description (nullable), status,
    user_id, created_at. *)
Record todo_row := mk_todo {
  t_id : Z;
  t_title : string;
  t_description : option string;
  t_status : string;
  t_user_id : Z;
  t_created_at : string
}.

(** The database file: both tables and, per table, the counter that
    AUTOINCREMENT keeps in [sqlite_sequence]. *)
Record DB := mk_db {
  users : list user_row;
  todos : list todo_row;
  seq_users : Z;
  seq_todos : Z
}.

(** [init_db] on a fresh file: both tables exist and are empty. *)
Definition empty_db : DB := mk_db [] [] 0 0.

(** [CREATE TABLE IF NOT EXISTS]: an existing database is left as it is. *)
Definition init_db (file : option DB) : DB :=
  match file with
  | Some db => db
  | None => empty_db
  end.

(** The rowid AUTOINCREMENT assigns: one more than the largest rowid the
    table has ever held. *)
Definition max_rowid (ids : list Z) : Z := fold_right Z.max 0 ids.

Definition next_rowid (seq : Z) (ids : list Z) : Z :=
  Z.max seq (max_rowid ids) + 1.

(** ** Errors and responses *)

Inductive error :=
| HTTPException (status_code : Z) (detail : string)
| RequestValidationError
| ResponseValidationError
| TypeError
| OverflowError.

(** The HTTP status the framework answers with. *)
Definition status_code_of (e : error) : Z :=
  match e with
  | HTTPException c _ => c
  | RequestValidationError => 422
  | ResponseValidationError => 500
  | TypeError => 500
  | OverflowError => 500
  end.

Inductive result (A : Type) :=
| Ok (a : A)
| Raise (e : error).
Arguments Ok {A} a.
Arguments Raise {A} e.

(** ** Models *)

Inductive TaskStatus := pending | completed.

Definition status_text (s : TaskStatus) : string :=
  match s with
  | pending => "pending"
  | completed => "completed"
  end.

(** [Literal["pending", "completed"]]. *)
Definition status_of_text (s : string) : option TaskStatus :=
  if String.eqb s "pending" then Some pending
  else if String.eqb s "completed" then Some completed
  else None.

Module UserCreate.
Record t := mk { name : string; email : string }.
End UserCreate.

Module TodoCreate.
Record t := mk { title : string; description : option string }.
End TodoCreate.

Module TodoUpdate.
Record t := mk {
  title : option string;
  description : option string;
  status : option TaskStatus
}.
End TodoUpdate.

Module Todo.
Record t := mk {
  id : Z;
  title : string;
  description : option string;
  status : TaskStatus;
  created_at : string
}.
End Todo.

(** A field of a JSON request body. *)
Inductive json_field :=
| Absent
| Null
| Str (s : string).

Record user_body := mk_user_body { ub_name : json_field; ub_email : json_field }.
Record todo_body := mk_todo_body { cb_title : json_field; cb_description : json_field }.
Record update_body := mk_update_body {
  pb_title : json_field;
  pb_description : json_field;
  pb_status : json_field
}.

(** A field declared [str]: required, and null is not a string. *)
Definition required_str (f : json_field) : option string :=
  match f with
  | Str s => Some s
  | Absent | Null => None
  end.

(** A field declared [Optional[str] = None]; it always validates. *)
Definition optional_str (f : json_field) : option string :=
  match f with
  | Str s => Some s
  | Absent | Null => None
  end.

(** A field declared [Optional[Literal[...]] = None]: the outer option is
    the validation, the inner one the value. *)
Definition optional_status (f : json_field) : option (option TaskStatus) :=
  match f with
  | Absent | Null => Some None
  | Str s =>
      match status_of_text s with
      | Some st => Some (Some st)
      | None => None
      end
  end.

Definition parse_UserCreate (b : user_body) : option UserCreate.t :=
  match required_str (ub_name b), required_str (ub_email b) with
  | Some n, Some e => Some (UserCreate.mk n e)
  | _, _ => None
  end.

Definition parse_TodoCreate (b : todo_body) : option TodoCreate.t :=
  match required_str (cb_title b) with
  | Some s => Some (TodoCreate.mk s (optional_str (cb_description b)))
  | None => None
  end.

Definition parse_TodoUpdate (b : update_body) : option TodoUpdate.t :=
  match optional_status (pb_status b) with
  | Some st =>
      Some (TodoUpdate.mk (optional_str (pb_title b))
                          (optional_str (pb_description b)) st)
  | None => None
  end.

(** [response_model=Todo]: the row is read through the [Todo] model, which
    drops [user_id] and requires a literal status. *)
Definition Todo_of_row (r : todo_row) : option Todo.t :=
  match status_of_text (t_status r) with
  | Some st =>
      Some (Todo.mk (t_id r) (t_title r) (t_description r) st (t_created_at r))
  | None => None
  end.

Definition respond_Todo (r : todo_row) : result Todo.t :=
  match Todo_of_row r with
  | Some t => Ok t
  | None => Raise ResponseValidationError
  end.

(** [response_model=List[Todo]]: every row has to validate. *)
Fixpoint respond_Todos (rows : list todo_row) : result (list Todo.t) :=
  match rows with
  | [] => Ok []
  | r :: rest =>
      match Todo_of_row r, respond_Todos rest with
      | Some t, Ok ts => Ok (t :: ts)
      | _, _ => Raise ResponseValidationError
      end
  end.

(** ** The SQL statements of the handlers *)

(** [SELECT * FROM users WHERE api_key = ?], [fetchone]. *)
Definition select_user_by_api_key (db : DB) (api_key : string) : option user_row :=
  find (fun u => String.eqb (u_api_key u) api_key) (users db).

(** [INSERT INTO users (name, email, api_key) VALUES (?, ?, ?)]; [None] is
    [sqlite3.IntegrityError], raised when either UNIQUE column collides. *)
Definition insert_user (db : DB) (name email api_key now : string) : option DB :=
  if existsb (fun u => String.eqb (u_email u) email) (users db)
     || existsb (fun u => String.eqb (u_api_key u) api_key) (users db)
  then None
  else
    let i := next_rowid (seq_users db) (map u_id (users db)) in
    Some (mk_db (users db ++ [mk_user i name email api_key now])
                (todos db) i (seq_todos db)).

(** [INSERT INTO todos (title, description, user_id) VALUES (?, ?, ?)
    RETURNING *]: status and created_at take their column defaults. *)
Definition insert_todo (db : DB) (title : string) (description : option string)
    (user_id : Z) (now : string) : todo_row * DB :=
  let i := next_rowid (seq_todos db) (map t_id (todos db)) in
  let row := mk_todo i title description "pending" user_id now in
  (row, mk_db (users db) (todos db ++ [row]) (seq_users db) i).

(** [SELECT * FROM todos WHERE user_id = ?], [fetchall]. *)
Definition select_todos_by_user (db : DB) (user_id : Z) : list todo_row :=
  filter (fun r => t_user_id r =? user_id) (todos db).

(** The first row of [todos] with this id and this user_id. *)
Definition lookup_todo (db : DB) (todo_id user_id : Z) : option todo_row :=
  find (fun r => (t_id r =? todo_id) && (t_user_id r =? user_id)) (todos db).

(** The integers [sqlite3] binds as a parameter: a Python [int] outside
    the signed 64-bit range makes [execute] raise [OverflowError]. *)
Definition fits_int64 (z : Z) : bool := (- 2 ^ 63 <=? z) && (z <=? 2 ^ 63 - 1).

(** [SELECT * FROM todos WHERE id = ? AND user_id = ?] with the path
    parameter [todo_id] bound for the first [?], then [fetchone]. *)
Definition select_todo (db : DB) (todo_id user_id : Z) : result (option todo_row) :=
  if fits_int64 todo_id then Ok (lookup_todo db todo_id user_id)
  else Raise OverflowError.

Inductive column := col_title | col_description | col_status.

(** One [k = ?] of a SET clause with its bound value. *)
Definition set_column (r : todo_row) (kv : column * string) : todo_row :=
  match fst kv with
  | col_title =>
      mk_todo (t_id r) (snd kv) (t_description r) (t_status r)
              (t_user_id r) (t_created_at r)
  | col_description =>
      mk_todo (t_id r) (t_title r) (Some (snd kv)) (t_status r)
              (t_user_id r) (t_created_at r)
  | col_status =>
      mk_todo (t_id r) (t_title r) (t_description r) (snd kv)
              (t_user_id r) (t_created_at r)
  end.

Definition set_columns (fields : list (column * string)) (r : todo_row) : todo_row :=
  fold_left set_column fields r.

(** [UPDATE todos SET ... WHERE id = ? RETURNING *]: the rows returned and
    the table after the statement. *)
Definition update_todos_by_id (db : DB) (fields : list (column * string))
    (todo_id : Z) : list todo_row * DB :=
  let upd r := if t_id r =? todo_id then set_columns fields r else r in
  (map (set_columns fields) (filter (fun r => t_id r =? todo_id) (todos db)),
   mk_db (users db) (map upd (todos db)) (seq_users db) (seq_todos db)).

(** [DELETE FROM todos WHERE id = ?]. *)
Definition delete_todos_by_id (db : DB) (todo_id : Z) : DB :=
  mk_db (users db) (filter (fun r => negb (t_id r =? todo_id)) (todos db))
        (seq_users db) (seq_todos db).

(** ** The handlers *)

Definition get_current_user (db : DB) (api_key : string) : result user_row :=
  match select_user_by_api_key db api_key with
  | None => Raise (HTTPException 401 "Invalid API key")
  | Some user => Ok user
  end.

Definition generate_api_key (db : DB) (token now : string) (user : UserCreate.t)
    : result string * DB :=
  let api_key := token in
  match insert_user db (UserCreate.name user) (UserCreate.email user) api_key now with
  | Some db' => (Ok api_key, db')
  | None => (Raise (HTTPException 400 "Email already registered"), db)
  end.

Definition create_todo (db : DB) (now : string) (todo : TodoCreate.t)
    (current_user : user_row) : todo_row * DB :=
  insert_todo db (TodoCreate.title todo) (TodoCreate.description todo)
              (u_id current_user) now.

Definition read_todos (db : DB) (current_user : user_row) : list todo_row :=
  select_todos_by_user db (u_id current_user).

(** [{k: v for k, v in todo_update.dict().items() if v is not None}], in
    the order of the fields of [TodoUpdate]. *)
Definition update_fields (todo_update : TodoUpdate.t) : list (column * string) :=
  let item (k : column) (v : option string) :=
    match v with
    | Some s => [(k, s)]
    | None => []
    end in
  item col_title (TodoUpdate.title todo_update)
  ++ item col_description (TodoUpdate.description todo_update)
  ++ item col_status (option_map status_text (TodoUpdate.status todo_update)).

Definition update_todo (db : DB) (todo_id : Z) (todo_update : TodoUpdate.t)
    (current_user : user_row) : result todo_row * DB :=
  match select_todo db todo_id (u_id current_user) with
  | Raise e => (Raise e, db)
  | Ok None => (Raise (HTTPException 404 "Todo not found"), db)
  | Ok (Some todo) =>
      match update_fields todo_update with
      | [] => (Ok todo, db)
      | fields =>
          let '(returning, db') := update_todos_by_id db fields todo_id in
          match returning with
          | [] => (Raise TypeError, db)
          | r :: _ => (Ok r, db')
          end
      end
  end.

Definition delete_todo (db : DB) (todo_id : Z) (current_user : user_row)
    : result string * DB :=
  match select_todo db todo_id (u_id current_user) with
  | Raise e => (Raise e, db)
  | Ok None => (Raise (HTTPException 404 "Todo not found"), db)
  | Ok (Some _) => (Ok "Todo deleted successfully", delete_todos_by_id db todo_id)
  end.

(** ** The routes: dependency, body validation, handler, response model

    A route first resolves [Depends(get_current_user)], whose
    [HTTPException] ends the request; then the body is validated; then the
    handler runs; then its return value is read through the response
    model. *)

(** [POST /generate-api-key]. *)
Definition post_generate_api_key (db : DB) (token now : string) (body : user_body)
    : result string * DB :=
  match parse_UserCreate body with
  | None => (Raise RequestValidationError, db)
  | Some user => generate_api_key db token now user
  end.

(** [POST /todos/]. *)
Definition post_todos (db : DB) (api_key now : string) (body : todo_body)
    : result Todo.t * DB :=
  match get_current_user db api_key with
  | Raise e => (Raise e, db)
  | Ok current_user =>
      match parse_TodoCreate body with
      | None => (Raise RequestValidationError, db)
      | Some todo =>
          let '(row, db') := create_todo db now todo current_user in
          (respond_Todo row, db')
      end
  end.

(** [GET /todos/]. *)
Definition get_todos (db : DB) (api_key : string) : result (list Todo.t) * DB :=
  match get_current_user db api_key with
  | Raise e => (Raise e, db)
  | Ok current_user => (respond_Todos (read_todos db current_user), db)
  end.

(** [PUT /todos/{todo_id}]. *)
Definition put_todos (db : DB) (api_key : string) (todo_id : Z) (body : update_body)
    : result Todo.t * DB :=
  match get_current_user db api_key with
  | Raise e => (Raise e, db)
  | Ok current_user =>
      match parse_TodoUpdate body with
      | None => (Raise RequestValidationError, db)
      | Some todo_update =>
          match update_todo db todo_id todo_update current_user with
          | (Ok row, db') => (respond_Todo row, db')
          | (Raise e, db') => (Raise e, db')
          end
      end
  end.

(** [DELETE /todos/{todo_id}]. *)
Definition delete_todos (db : DB) (api_key : string) (todo_id : Z)
    : result string * DB :=
  match get_current_user db api_key with
  | Raise e => (Raise e, db)
  | Ok current_user => delete_todo db todo_id current_user
  end.

(** ** The service as a transition system *)

Inductive request :=
| PostGenerateApiKey (token now : string) (body : user_body)
| PostTodos (api_key now : string) (body : todo_body)
| GetTodos (api_key : string)
| PutTodos (api_key : string) (todo_id : Z) (body : update_body)
| DeleteTodos (api_key : string) (todo_id : Z).

(** The database committed once a request has been answered. *)
Definition handle (db : DB) (req : request) : DB :=
  match req with
  | PostGenerateApiKey token now body => snd (post_generate_api_key db token now body)
  | PostTodos api_key now body => snd (post_todos db api_key now body)
  | GetTodos api_key => snd (get_todos db api_key)
  | PutTodos api_key todo_id body => snd (put_todos db api_key todo_id body)
  | DeleteTodos api_key todo_id => snd (delete_todos db api_key todo_id)
  end.

Definition run (db : DB) (reqs : list request) : DB := fold_left handle reqs db.

(** The databases the service can be in after startup on a fresh file. *)
Definition reachable (db : DB) : Prop := exists reqs, db = run (init_db None) reqs.

(** What the schema and the handlers maintain. *)
Record db_ok (db : DB) : Prop := mk_db_ok {
  ok_todo_ids : NoDup (map t_id (todos db));
  ok_todo_seq : Forall (fun r => t_id r <= seq_todos db) (todos db);
  ok_status : Forall (fun r => status_of_text (t_status r) <> None) (todos db);
  ok_owner : Forall (fun r => In (t_user_id r) (map u_id (users db))) (todos db);
  ok_user_ids : NoDup (map u_id (users db));
  ok_user_seq : Forall (fun u => u_id u <= seq_users db) (users db);
  ok_emails : NoDup (map u_email (users db));
  ok_api_keys : NoDup (map u_api_key (users db))
}.

(** The caller owns a task with this identifier.  The identifier of a
    task is an INTEGER of the store, a signed 64-bit integer. *)
Definition owns (db : DB) (user : user_row) (todo_id : Z) : Prop :=
  fits_int64 todo_id = true
  /\ exists r, In r (todos db) /\ t_id r = todo_id /\ t_user_id r = u_id user.

(** What Update and Delete raise for a caller who does not own the task
    they name. *)
Definition refusal (todo_id : Z) : error :=
  if fits_int64 todo_id then HTTPException 404 "Todo not found" else OverflowError.


(** A [PUT] body in which every null field has been dropped. *)
Definition drop_null (f : json_field) : json_field :=
  match f with
  | Null => Absent
  | _ => f
  end.

Definition drop_nulls (b : update_body) : update_body :=
  mk_update_body (drop_null (pb_title b)) (drop_null (pb_description b))
                 (drop_null (pb_status b)).

(** The requests other than Create. *)
Definition is_create (req : request) : bool :=
  match req with
  | PostTodos _ _ _ => true
  | _ => false
  end.

(** The API key a request presents, if its route asks for one. *)
Definition request_key (req : request) : option string :=
  match req with
  | PostGenerateApiKey _ _ _ => None
  | PostTodos api_key _ _ => Some api_key
  | GetTodos api_key => Some api_key
  | PutTodos api_key _ _ => Some api_key
  | DeleteTodos api_key _ => Some api_key
  end.




(** ** A small session, used to exercise the statements *)

Module Session.

Definition alice := mk_user_body (Str "Alice") (Str "alice@example.org").
Definition bob := mk_user_body (Str "Bob") (Str "bob@example.org").

(** Alice and Bob register; Alice creates two tasks, Bob one. *)
Definition requests : list request :=
  [ PostGenerateApiKey "key-alice" "2024-01-01 10:00:00" alice;
    PostGenerateApiKey "key-bob" "2024-01-01 10:05:00" bob;
    PostTodos "key-alice" "2024-01-01 11:00:00"
      (mk_todo_body (Str "Buy milk") Absent);
    PostTodos "key-bob" "2024-01-01 11:30:00"
      (mk_todo_body (Str "Call mum") (Str "before noon"));
    PostTodos "key-alice" "2024-01-01 12:00:00"
      (mk_todo_body (Str "Pay rent") Null) ].

Definition db : DB := Eval vm_compute in run empty_db requests.

Definition alice_row : user_row :=
  mk_user 1 "Alice" "alice@example.org" "key-alice" "2024-01-01 10:00:00".
Definition bob_row : user_row :=
  mk_user 2 "Bob" "bob@example.org" "key-bob" "2024-01-01 10:05:00".

(** The same session before Bob created his task. *)
Definition db_before : DB := Eval vm_compute in run empty_db (firstn 3 requests).

(** The same session when only the two registrations have happened. *)
Definition db_users : DB := Eval vm_compute in run empty_db (firstn 2 requests).

End Session.

(** * Properties *)

(** ** The two lookups *)

Lemma lookup_todo_Some db todo_id user_id r :
  lookup_todo db todo_id user_id = Some r ->
  In r (todos db) /\ t_id r = todo_id /\ t_user_id r = user_id.
Proof.
  unfold lookup_todo. intros H.
  apply find_some in H. destruct H as [Hin Hb].
  apply andb_prop in Hb. destruct Hb as [H1 H2].
  apply Z.eqb_eq in H1. apply Z.eqb_eq in H2. auto.
Qed.

Lemma lookup_todo_None db todo_id user_id :
  lookup_todo db todo_id user_id = None ->
  forall r, In r (todos db) -> t_id r = todo_id -> t_user_id r <> user_id.
Proof.
  unfold lookup_todo. intros H r Hin Hid Hown.
  pose proof (find_none _ _ H r Hin) as Hb. cbv beta in Hb.
  rewrite Hid, Hown, !Z.eqb_refl in Hb. discriminate.
Qed.

Lemma lookup_todo_not_owned db user todo_id :
  fits_int64 todo_id = true ->
  ~ owns db user todo_id -> lookup_todo db todo_id (u_id user) = None.
Proof.
  intros Hfit Hno.
  destruct (lookup_todo db todo_id (u_id user)) as [r|] eqn:E; [|reflexivity].
  exfalso. apply Hno. split; [exact Hfit|]. exists r. now apply lookup_todo_Some.
Qed.

Lemma lookup_todo_owned db user todo_id :
  owns db user todo_id -> exists r, lookup_todo db todo_id (u_id user) = Some r.
Proof.
  intros [_ [r (Hin & Hid & Hown)]].
  destruct (lookup_todo db todo_id (u_id user)) as [r'|] eqn:E; [now exists r'|].
  exfalso. exact (lookup_todo_None _ _ _ E r Hin Hid Hown).
Qed.

Lemma select_todo_bound db todo_id user_id :
  fits_int64 todo_id = true ->
  select_todo db todo_id user_id = Ok (lookup_todo db todo_id user_id).
Proof. intros H. unfold select_todo. now rewrite H. Qed.

Lemma select_todo_unbound db todo_id user_id :
  fits_int64 todo_id = false ->
  select_todo db todo_id user_id = Raise OverflowError.
Proof. intros H. unfold select_todo. now rewrite H. Qed.

Lemma get_current_user_Ok db api_key user :
  get_current_user db api_key = Ok user ->
  In user (users db) /\ u_api_key user = api_key.
Proof.
  unfold get_current_user, select_user_by_api_key.
  destruct (find _ _) as [u|] eqn:E; [|discriminate].
  intros H. injection H as <-. apply find_some in E. destruct E as [Hin Hb].
  apply String.eqb_eq in Hb. auto.
Qed.

Lemma get_current_user_unknown db api_key :
  (forall u, In u (users db) -> u_api_key u <> api_key) ->
  get_current_user db api_key = Raise (HTTPException 401 "Invalid API key").
Proof.
  intros Hno. unfold get_current_user, select_user_by_api_key.
  destruct (find _ _) as [u|] eqn:E; [|reflexivity].
  apply find_some in E. destruct E as [Hin Hb]. apply String.eqb_eq in Hb.
  now elim (Hno u Hin).
Qed.

(** ** Ownership check of Update and Delete *)

Lemma update_todo_not_owned db todo_id todo_update user :
  ~ owns db user todo_id ->
  update_todo db todo_id todo_update user = (Raise (refusal todo_id), db).
Proof.
  intros Hno. unfold update_todo, refusal, select_todo.
  destruct (fits_int64 todo_id) eqn:Hfit; [|reflexivity].
  now rewrite (lookup_todo_not_owned _ _ _ Hfit Hno).
Qed.

Lemma delete_todo_not_owned db todo_id user :
  ~ owns db user todo_id ->
  delete_todo db todo_id user = (Raise (refusal todo_id), db).
Proof.
  intros Hno. unfold delete_todo, refusal, select_todo.
  destruct (fits_int64 todo_id) eqn:Hfit; [|reflexivity].
  now rewrite (lookup_todo_not_owned _ _ _ Hfit Hno).
Qed.

Lemma put_todos_not_owned db api_key user todo_id body :
  get_current_user db api_key = Ok user ->
  ~ owns db user todo_id ->
  put_todos db api_key todo_id body
  = (Raise (match parse_TodoUpdate body with
            | Some _ => refusal todo_id
            | None => RequestValidationError
            end), db).
Proof.
  intros Hu Hno. unfold put_todos. rewrite Hu.
  destruct (parse_TodoUpdate body) as [tu|]; [|reflexivity].
  now rewrite (update_todo_not_owned _ _ _ _ Hno).
Qed.

Lemma delete_todos_not_owned db api_key user todo_id :
  get_current_user db api_key = Ok user ->
  ~ owns db user todo_id ->
  delete_todos db api_key todo_id = (Raise (refusal todo_id), db).
Proof.
  intros Hu Hno. unfold delete_todos.
  now rewrite Hu, (delete_todo_not_owned _ _ _ Hno).
Qed.

(** C1, where the code departs from it.  Alice names the identifier 2^63,
    which is the identifier of no task: binding it into the SELECT raises
    [OverflowError], which no handler catches, so Update and Delete are
    answered 500 and not 404 "Todo not found".  One less, 2^63 - 1, is
    answered 404; so is -2^63, while -2^63 - 1 overflows as well.  Nothing
    is committed in any of these cases. *)
Theorem C1_unbindable_identifier_is_not_answered_not_found :
  let body := mk_update_body (Str "mine now") Absent (Str "completed") in
  ~ owns Session.db Session.alice_row 9223372036854775808
  /\ get_current_user Session.db "key-alice" = Ok Session.alice_row
  /\ put_todos Session.db "key-alice" 9223372036854775808 body
     = (Raise OverflowError, Session.db)
  /\ delete_todos Session.db "key-alice" 9223372036854775808
     = (Raise OverflowError, Session.db)
  /\ status_code_of OverflowError = 500
  /\ put_todos Session.db "key-alice" 9223372036854775807 body
     = (Raise (HTTPException 404 "Todo not found"), Session.db)
  /\ delete_todos Session.db "key-alice" 9223372036854775807
     = (Raise (HTTPException 404 "Todo not found"), Session.db)
  /\ delete_todos Session.db "key-alice" (-9223372036854775809)
     = (Raise OverflowError, Session.db)
  /\ delete_todos Session.db "key-alice" (-9223372036854775808)
     = (Raise (HTTPException 404 "Todo not found"), Session.db).
Proof.
  intros body. split.
  - intros [Hfit _]. discriminate.
  - repeat split.
Qed.

(** ** Unknown credentials *)

(** C2. A request to any of the four authenticated routes whose API key
    is the key of no stored user is answered 401 "Invalid API key"; the
    database is unchanged and the response carries no task. *)
Theorem C2_unknown_key_is_unauthenticated
    (db : DB) (api_key now : string) (todo_id : Z)
    (create : todo_body) (update : update_body) :
  (forall u, In u (users db) -> u_api_key u <> api_key) ->
  post_todos db api_key now create
    = (Raise (HTTPException 401 "Invalid API key"), db)
  /\ get_todos db api_key
    = (Raise (HTTPException 401 "Invalid API key"), db)
  /\ put_todos db api_key todo_id update
    = (Raise (HTTPException 401 "Invalid API key"), db)
  /\ delete_todos db api_key todo_id
    = (Raise (HTTPException 401 "Invalid API key"), db).
Proof.
  intros Hno. apply get_current_user_unknown in Hno.
  unfold post_todos, get_todos, put_todos, delete_todos.
  rewrite Hno. repeat split.
Qed.

Lemma C2_witness :
  (forall u, In u (users Session.db) -> u_api_key u <> "key-mallory")
  /\ post_todos Session.db "key-mallory" "2024-01-02 09:00:00"
       (mk_todo_body (Str "x") Absent)
     = (Raise (HTTPException 401 "Invalid API key"), Session.db)
  /\ get_todos Session.db "key-mallory"
     = (Raise (HTTPException 401 "Invalid API key"), Session.db)
  /\ put_todos Session.db "key-mallory" 1 (mk_update_body Absent Absent (Str "completed"))
     = (Raise (HTTPException 401 "Invalid API key"), Session.db)
  /\ delete_todos Session.db "key-mallory" 1
     = (Raise (HTTPException 401 "Invalid API key"), Session.db).
Proof.
  assert (H : forall u, In u (users Session.db) -> u_api_key u <> "key-mallory").
  { intros u [<-|[<-|[]]]; discriminate. }
  split; [exact H|].
  exact (C2_unknown_key_is_unauthenticated Session.db "key-mallory"
           "2024-01-02 09:00:00" 1 (mk_todo_body (Str "x") Absent)
           (mk_update_body Absent Absent (Str "completed")) H).
Defined.

(** ** What every reachable database satisfies *)

Lemma max_rowid_ge ids i : In i ids -> i <= max_rowid ids.
Proof.
  induction ids as [|j ids IH]; simpl; [easy|].
  intros [->|Hin]; [lia|]. specialize (IH Hin). lia.
Qed.

Lemma next_rowid_fresh seq ids : ~ In (next_rowid seq ids) ids.
Proof.
  intros Hin. apply max_rowid_ge in Hin. unfold next_rowid in Hin. lia.
Qed.

Lemma next_rowid_gt_seq seq ids : seq < next_rowid seq ids.
Proof. unfold next_rowid. lia. Qed.

Lemma status_of_text_status_text st : status_of_text (status_text st) = Some st.
Proof. now destruct st. Qed.


(** The effect of the SET clause built from a [TodoUpdate], column by
    column. *)
Lemma set_columns_update_fields tu r :
  set_columns (update_fields tu) r
  = mk_todo (t_id r)
      (match TodoUpdate.title tu with Some s => s | None => t_title r end)
      (match TodoUpdate.description tu with Some d => Some d | None => t_description r end)
      (match TodoUpdate.status tu with Some st => status_text st | None => t_status r end)
      (t_user_id r) (t_created_at r).
Proof.
  destruct tu as [[ti|] [de|] [st|]]; destruct r; reflexivity.
Qed.

Lemma existsb_String_eqb_false {A} (f : A -> string) (s : string) (l : list A) :
  existsb (fun a => String.eqb (f a) s) l = false -> ~ In s (map f l).
Proof.
  intros H Hin. apply in_map_iff in Hin. destruct Hin as [a [Ha Hin]].
  assert (E : existsb (fun a => String.eqb (f a) s) l = true).
  { apply existsb_exists. exists a. split; [exact Hin|]. now apply String.eqb_eq. }
  congruence.
Qed.

Lemma NoDup_snoc {A} (l : list A) (a : A) : NoDup l -> ~ In a l -> NoDup (l ++ [a]).
Proof.
  intros Hl Ha. apply NoDup_app; [exact Hl|repeat constructor; easy|].
  intros x Hx [<-|[]]. contradiction.
Qed.

Lemma insert_user_Some db name email api_key now db' :
  insert_user db name email api_key now = Some db' ->
  ~ In email (map u_email (users db))
  /\ ~ In api_key (map u_api_key (users db))
  /\ db' = mk_db (users db
                  ++ [mk_user (next_rowid (seq_users db) (map u_id (users db)))
                              name email api_key now])
                 (todos db)
                 (next_rowid (seq_users db) (map u_id (users db)))
                 (seq_todos db).
Proof.
  unfold insert_user.
  destruct (existsb _ _ || existsb _ _) eqn:E; [discriminate|].
  apply orb_false_elim in E. destruct E as [E1 E2].
  intros [= <-]. repeat split.
  - now apply (existsb_String_eqb_false u_email).
  - now apply (existsb_String_eqb_false u_api_key).
Qed.

Lemma insert_user_ok db name email api_key now db' :
  db_ok db -> insert_user db name email api_key now = Some db' -> db_ok db'.
Proof.
  intros [Hids Hseq Hst Hown Huids Huseq Hem Hkeys] H.
  apply insert_user_Some in H. destruct H as (He & Hk & ->).
  pose proof (next_rowid_gt_seq (seq_users db) (map u_id (users db))) as Hgt.
  constructor; simpl; rewrite ?map_app; simpl; trivial.
  - eapply Forall_impl; [|exact Hown]. cbv beta. intros r Hr. apply in_or_app. now left.
  - apply NoDup_snoc; [assumption|apply next_rowid_fresh].
  - apply Forall_app. split.
    + eapply Forall_impl; [|exact Huseq]. cbv beta. intros; lia.
    + repeat constructor. simpl. lia.
  - now apply NoDup_snoc.
  - now apply NoDup_snoc.
Qed.

Lemma insert_todo_ok db title description user_id now :
  db_ok db -> In user_id (map u_id (users db)) ->
  db_ok (snd (insert_todo db title description user_id now)).
Proof.
  intros [Hids Hseq Hst Hown Huids Huseq Hem Hkeys] Hu.
  pose proof (next_rowid_gt_seq (seq_todos db) (map t_id (todos db))) as Hgt.
  constructor; simpl; rewrite ?map_app; simpl; trivial.
  - apply NoDup_snoc; [assumption|apply next_rowid_fresh].
  - apply Forall_app. split.
    + eapply Forall_impl; [|exact Hseq]. cbv beta. intros; lia.
    + repeat constructor. simpl. lia.
  - apply Forall_app. split; [assumption|]. repeat constructor. simpl. discriminate.
  - apply Forall_app. split; [assumption|]. repeat constructor. simpl. assumption.
Qed.

Lemma update_todos_by_id_ok db tu todo_id :
  db_ok db -> db_ok (snd (update_todos_by_id db (update_fields tu) todo_id)).
Proof.
  intros [Hids Hseq Hst Hown Huids Huseq Hem Hkeys].
  assert (Hid : forall l,
    map t_id (map (fun r => if t_id r =? todo_id
                            then set_columns (update_fields tu) r else r) l)
    = map t_id l).
  { intros l. rewrite map_map. apply map_ext. intros r.
    destruct (t_id r =? todo_id); [|reflexivity].
    now rewrite set_columns_update_fields. }
  constructor; simpl; trivial.
  - now rewrite Hid.
  - apply Forall_map. eapply Forall_impl; [|exact Hseq]. cbv beta. intros r Hr.
    destruct (t_id r =? todo_id); [|assumption].
    now rewrite set_columns_update_fields.
  - apply Forall_map. eapply Forall_impl; [|exact Hst]. cbv beta. intros r Hr.
    destruct (t_id r =? todo_id); [|assumption].
    rewrite set_columns_update_fields. simpl.
    destruct (TodoUpdate.status tu) as [st|]; [|assumption].
    now rewrite status_of_text_status_text.
  - apply Forall_map. eapply Forall_impl; [|exact Hown]. cbv beta. intros r Hr.
    destruct (t_id r =? todo_id); [|assumption].
    now rewrite set_columns_update_fields.
Qed.

(** Identifiers stay distinct in any selection of rows. *)
Lemma NoDup_ids_filter (keep : todo_row -> bool) (rows : list todo_row) :
  NoDup (map t_id rows) -> NoDup (map t_id (filter keep rows)).
Proof.
  induction rows as [|r rows IH]; simpl; [trivial|].
  intros H. inversion H as [|? ? Hn Hl]; subst.
  destruct (keep r); simpl; [|auto].
  constructor; [|auto]. intros Hin. apply Hn.
  apply in_map_iff in Hin. destruct Hin as [x [Hx Hin]].
  apply filter_In in Hin. apply in_map_iff. exists x. tauto.
Qed.

Lemma Forall_filter {A} (P : A -> Prop) (p : A -> bool) (l : list A) :
  Forall P l -> Forall P (filter p l).
Proof.
  intros H. apply Forall_forall. intros x Hx. apply filter_In in Hx.
  rewrite Forall_forall in H. apply H. tauto.
Qed.

Lemma delete_todos_by_id_ok db todo_id :
  db_ok db -> db_ok (delete_todos_by_id db todo_id).
Proof.
  intros []. constructor; simpl; trivial.
  - now apply NoDup_ids_filter.
  - now apply Forall_filter.
  - now apply Forall_filter.
  - now apply Forall_filter.
Qed.

Lemma empty_db_ok : db_ok empty_db.
Proof. constructor; simpl; constructor. Qed.

Lemma handle_ok db req : db_ok db -> db_ok (handle db req).
Proof.
  intros Hok. destruct req as [token now body|api_key now body|api_key
                              |api_key todo_id body|api_key todo_id]; simpl.
  - unfold post_generate_api_key.
    destruct (parse_UserCreate body) as [user|]; [|assumption].
    unfold generate_api_key.
    destruct (insert_user _ _ _ _ _) as [db'|] eqn:E; [|assumption].
    simpl. eapply insert_user_ok; eassumption.
  - unfold post_todos.
    destruct (get_current_user db api_key) as [user|e] eqn:Hu; [|assumption].
    destruct (parse_TodoCreate body) as [todo|]; [|assumption].
    unfold create_todo.
    destruct (insert_todo _ _ _ _ _) as [row db'] eqn:E. simpl.
    change db' with (snd (row, db')). rewrite <- E.
    apply insert_todo_ok; [assumption|].
    apply get_current_user_Ok in Hu. now apply in_map.
  - unfold get_todos. now destruct (get_current_user db api_key).
  - unfold put_todos.
    destruct (get_current_user db api_key) as [user|e]; [|assumption].
    destruct (parse_TodoUpdate body) as [tu|]; [|assumption].
    unfold update_todo.
    unfold select_todo. destruct (fits_int64 todo_id); [|assumption].
    destruct (lookup_todo _ _ _) as [todo|]; [|assumption].
    destruct (update_fields tu) as [|kv fields] eqn:Ef; [assumption|].
    rewrite <- Ef.
    pose proof (update_todos_by_id_ok db tu todo_id Hok) as Hok'.
    destruct (update_todos_by_id _ _ _) as [returning db'].
    destruct returning; assumption.
  - unfold delete_todos.
    destruct (get_current_user db api_key) as [user|e]; [|assumption].
    unfold delete_todo.
    unfold select_todo. destruct (fits_int64 todo_id); [|assumption].
    destruct (lookup_todo _ _ _); [|assumption].
    simpl. now apply delete_todos_by_id_ok.
Qed.

Lemma run_ok reqs : forall db, db_ok db -> db_ok (run db reqs).
Proof.
  induction reqs as [|req reqs IH]; intros db Hok; simpl; [assumption|].
  apply IH. now apply handle_ok.
Qed.

(** The schema constraints, the literal statuses and the owners of the
    tasks are an invariant of the service. *)
Lemma reachable_db_ok db : reachable db -> db_ok db.
Proof. intros [reqs ->]. apply run_ok, empty_db_ok. Qed.

Lemma Session_db_ok : db_ok Session.db.
Proof. apply reachable_db_ok. now exists Session.requests. Qed.

Lemma Session_db_before_ok : db_ok Session.db_before.
Proof. apply reachable_db_ok. now exists (firstn 3 Session.requests). Qed.


(** ** List *)

Lemma respond_Todos_Ok rows :
  Forall (fun r => status_of_text (t_status r) <> None) rows ->
  exists tasks, respond_Todos rows = Ok tasks /\ map Some tasks = map Todo_of_row rows.
Proof.
  induction 1 as [|r rows Hr _ IH]; simpl.
  - now exists [].
  - destruct IH as [tasks [-> Hmap]].
    assert (Ht : exists t, Todo_of_row r = Some t).
    { unfold Todo_of_row.
      destruct (status_of_text (t_status r)); [now eexists|contradiction]. }
    destruct Ht as [t Ht]. rewrite Ht.
    exists (t :: tasks). split; [reflexivity|]. simpl. now rewrite Hmap.
Qed.

Lemma map_Some_In {A B} (f : A -> option B) (l : list A) (ts : list B) :
  map Some ts = map f l ->
  forall t, In t ts <-> exists r, In r l /\ f r = Some t.
Proof.
  intros Hmap t. split.
  - intros Hin. apply (in_map Some) in Hin. rewrite Hmap in Hin.
    apply in_map_iff in Hin. destruct Hin as [r [Hr Hin]]. now exists r.
  - intros [r [Hin Hr]]. apply (in_map f) in Hin. rewrite <- Hmap, Hr in Hin.
    apply in_map_iff in Hin. destruct Hin as [t' [[= ->] Hin]]. exact Hin.
Qed.

Lemma Todo_of_row_id r t : Todo_of_row r = Some t -> Todo.id t = t_id r.
Proof.
  unfold Todo_of_row. destruct (status_of_text (t_status r)); [|discriminate].
  now intros [= <-].
Qed.

Lemma map_Some_ids rows : forall tasks,
  map Some tasks = map Todo_of_row rows -> map Todo.id tasks = map t_id rows.
Proof.
  induction rows as [|r rows IH]; intros [|t tasks]; simpl; try discriminate; trivial.
  intros [= Ht Hrest]. f_equal; [|auto].
  now apply Todo_of_row_id.
Qed.

Lemma NoDup_map_inj {A B} (f : A -> B) (l : list A) (a b : A) :
  NoDup (map f l) -> In a l -> In b l -> f a = f b -> a = b.
Proof.
  induction l as [|x l IH]; simpl; [easy|].
  intros H Ha Hb E. inversion H as [|? ? Hn Hl]; subst.
  destruct Ha as [->|Ha], Hb as [->|Hb]; trivial.
  - elim Hn. rewrite E. now apply in_map.
  - elim Hn. rewrite <- E. now apply in_map.
  - auto.
Qed.

Lemma read_todos_In db user r :
  In r (read_todos db user) <-> In r (todos db) /\ t_user_id r = u_id user.
Proof.
  unfold read_todos, select_todos_by_user. rewrite filter_In.
  now rewrite Z.eqb_eq.
Qed.

Lemma read_todos_nil db user :
  (forall r, In r (todos db) -> t_user_id r <> u_id user) -> read_todos db user = [].
Proof.
  intros Hno. destruct (read_todos db user) as [|r rows] eqn:E; [reflexivity|].
  assert (Hin : In r (read_todos db user)) by (rewrite E; now left).
  apply read_todos_In in Hin. destruct Hin as [Hin Hown]. now elim (Hno r Hin).
Qed.

(** C3. List answers an authenticated caller with an empty collection when
    the caller owns no task.  On a database that satisfies [db_ok] (every
    reachable one does, [reachable_db_ok]) it answers with a collection
    [tasks] that holds every task of the caller, holds only tasks of the
    caller, lists no task twice, and mentions the identifier of no task
    owned by somebody else; the database is unchanged. *)
Theorem C3_list_is_exactly_the_callers_tasks
    (db : DB) (api_key : string) (user : user_row) :
  get_current_user db api_key = Ok user ->
  ((forall r, In r (todos db) -> t_user_id r <> u_id user) ->
   get_todos db api_key = (Ok [], db))
  /\ (db_ok db ->
      exists tasks,
        get_todos db api_key = (Ok tasks, db)
        /\ (forall r, In r (todos db) -> t_user_id r = u_id user ->
              exists t, In t tasks /\ Todo_of_row r = Some t)
        /\ (forall t, In t tasks ->
              exists r, In r (todos db) /\ t_user_id r = u_id user
                        /\ Todo_of_row r = Some t)
        /\ (forall r, In r (todos db) -> t_user_id r <> u_id user ->
              ~ In (t_id r) (map Todo.id tasks))
        /\ NoDup (map Todo.id tasks)).
Proof.
  intros Hu. unfold get_todos. rewrite Hu. split.
  - intros Hno. now rewrite (read_todos_nil _ _ Hno).
  - intros Hok.
    destruct (respond_Todos_Ok (read_todos db user)) as [tasks [Hr Hmap]].
    { apply Forall_filter. apply (ok_status _ Hok). }
    exists tasks. rewrite Hr.
    pose proof (map_Some_In _ _ _ Hmap) as HIn.
    pose proof (map_Some_ids _ _ Hmap) as Hmid.
    assert (Hc : forall t, In t tasks ->
              exists r, In r (todos db) /\ t_user_id r = u_id user
                        /\ Todo_of_row r = Some t).
    { intros t Ht. apply HIn in Ht. destruct Ht as [r [Hin Hr']].
      apply read_todos_In in Hin. exists r. tauto. }
    split; [reflexivity|]. split; [|split; [exact Hc|split]].
    + intros r Hin Hown.
      assert (Hs : status_of_text (t_status r) <> None).
      { pose proof (ok_status _ Hok) as Hst. rewrite Forall_forall in Hst. auto. }
      unfold Todo_of_row at 1.
      destruct (status_of_text (t_status r)) as [st|] eqn:Est; [|contradiction].
      eexists. split; [|reflexivity]. apply HIn. exists r. split.
      * apply read_todos_In. auto.
      * unfold Todo_of_row. now rewrite Est.
    + intros r Hin Hother Hid.
      apply in_map_iff in Hid. destruct Hid as [t [Ht Hint]].
      destruct (Hc t Hint) as [r' (Hin' & Hown' & Hr')].
      apply Todo_of_row_id in Hr'.
      assert (r' = r).
      { apply (NoDup_map_inj t_id (todos db)); trivial.
        - apply (ok_todo_ids _ Hok).
        - congruence. }
      subst r'. contradiction.
    + rewrite Hmid. apply NoDup_ids_filter. apply (ok_todo_ids _ Hok).
Qed.

(** Bob before he created anything, and Alice with her two tasks. *)
Lemma C3_witness :
  get_current_user Session.db_before "key-bob" = Ok Session.bob_row
  /\ get_todos Session.db_before "key-bob" = (Ok [], Session.db_before)
  /\ get_current_user Session.db "key-alice" = Ok Session.alice_row
  /\ get_todos Session.db "key-alice"
     = (Ok [Todo.mk 1 "Buy milk" None pending "2024-01-01 11:00:00";
            Todo.mk 3 "Pay rent" None pending "2024-01-01 12:00:00"],
        Session.db).
Proof.
  split; [reflexivity|]. split.
  - apply (proj1 (C3_list_is_exactly_the_callers_tasks
                    Session.db_before "key-bob" Session.bob_row eq_refl)).
    intros r [<-|[]]. discriminate.
  - split; [reflexivity|].
    destruct (proj2 (C3_list_is_exactly_the_callers_tasks
                       Session.db "key-alice" Session.alice_row eq_refl)
                    Session_db_ok) as [tasks [Hget _]].
    rewrite Hget. f_equal.
    change (get_todos Session.db "key-alice")
      with (@Ok (list Todo.t)
             [Todo.mk 1 "Buy milk" None pending "2024-01-01 11:00:00";
              Todo.mk 3 "Pay rent" None pending "2024-01-01 12:00:00"],
            Session.db) in Hget.
    now injection Hget as <-.
Defined.

(** ** Registration *)



Lemma generate_api_key_Ok db token now user api_key db' :
  generate_api_key db token now user = (Ok api_key, db') ->
  api_key = token
  /\ insert_user db (UserCreate.name user) (UserCreate.email user) token now = Some db'.
Proof.
  unfold generate_api_key.
  destruct (insert_user _ _ _ _ _) as [db1|]; [|discriminate].
  now intros [= <- <-].
Qed.



(** ** Create *)

Lemma get_todos_ok db api_key user :
  get_current_user db api_key = Ok user -> db_ok db ->
  exists tasks,
    get_todos db api_key = (Ok tasks, db)
    /\ map Some tasks = map Todo_of_row (read_todos db user).
Proof.
  intros Hu Hok. unfold get_todos. rewrite Hu.
  destruct (respond_Todos_Ok (read_todos db user)) as [tasks [Hr Hmap]].
  { apply Forall_filter. apply (ok_status _ Hok). }
  exists tasks. now rewrite Hr.
Qed.




(** ** Update *)

Lemma filter_id_nil (l : list todo_row) i :
  ~ In i (map t_id l) -> filter (fun r => t_id r =? i) l = [].
Proof.
  induction l as [|x l IH]; simpl; [trivial|].
  intros Hno. destruct (t_id x =? i) eqn:E.
  - apply Z.eqb_eq in E. elim Hno. now left.
  - apply IH. intros Hin. apply Hno. now right.
Qed.

Lemma filter_id_singleton (l : list todo_row) row :
  NoDup (map t_id l) -> In row l ->
  filter (fun r => t_id r =? t_id row) l = [row].
Proof.
  induction l as [|x l IH]; simpl; [easy|].
  intros H Hin. inversion H as [|? ? Hn Hl]; subst.
  destruct Hin as [->|Hin].
  - rewrite Z.eqb_refl. f_equal. now apply filter_id_nil.
  - destruct (t_id x =? t_id row) eqn:E.
    + apply Z.eqb_eq in E. elim Hn. rewrite E. now apply in_map.
    + auto.
Qed.

Lemma lookup_todo_unique db row :
  NoDup (map t_id (todos db)) -> In row (todos db) ->
  lookup_todo db (t_id row) (t_user_id row) = Some row.
Proof.
  intros Hnd Hin.
  destruct (lookup_todo db (t_id row) (t_user_id row)) as [r|] eqn:E.
  - apply lookup_todo_Some in E. destruct E as (Hr & Hid & _).
    f_equal. now apply (NoDup_map_inj t_id (todos db)).
  - now elim (lookup_todo_None _ _ _ E row Hin).
Qed.

Lemma map_if_same {A} (p : A -> bool) (l : list A) :
  map (fun a => if p a then a else a) l = l.
Proof.
  induction l as [|a l IH]; simpl; [trivial|]. rewrite IH. now destruct (p a).
Qed.

(** The handler on a task of the caller: the row is rewritten by the SET
    clause, every other row is left alone. *)
Lemma update_todo_owned db todo_update user row :
  fits_int64 (t_id row) = true ->
  NoDup (map t_id (todos db)) -> In row (todos db) ->
  t_user_id row = u_id user ->
  update_todo db (t_id row) todo_update user
  = (Ok (set_columns (update_fields todo_update) row),
     mk_db (users db)
           (map (fun r => if t_id r =? t_id row
                          then set_columns (update_fields todo_update) r else r)
                (todos db))
           (seq_users db) (seq_todos db)).
Proof.
  intros Hfit Hnd Hin Hown. unfold update_todo.
  rewrite (select_todo_bound _ _ _ Hfit).
  rewrite <- Hown, (lookup_todo_unique _ _ Hnd Hin).
  destruct (update_fields todo_update) as [|kv fields] eqn:Ef.
  - unfold set_columns. simpl. rewrite map_if_same. now destruct db.
  - unfold update_todos_by_id. now rewrite (filter_id_singleton _ _ Hnd Hin).
Qed.


(** What the [TodoUpdate] model holds for a body whose status, if it is
    given, is one of the two literals. *)
Lemma parse_TodoUpdate_literal body :
  pb_status body = Absent \/ pb_status body = Null
  \/ pb_status body = Str "pending" \/ pb_status body = Str "completed" ->
  exists st,
    parse_TodoUpdate body
    = Some (TodoUpdate.mk
              (match pb_title body with Str s => Some s | Absent | Null => None end)
              (match pb_description body with Str d => Some d | Absent | Null => None end)
              st)
    /\ option_map status_text st
       = match pb_status body with Str s => Some s | Absent | Null => None end.
Proof.
  unfold parse_TodoUpdate.
  intros [E|[E|[E|E]]]; rewrite E; simpl; eexists; split; reflexivity.
Qed.



(** ** Delete *)

Lemma delete_todos_by_id_In db todo_id r :
  In r (todos (delete_todos_by_id db todo_id)) <-> In r (todos db) /\ t_id r <> todo_id.
Proof.
  unfold delete_todos_by_id. simpl. rewrite filter_In.
  rewrite negb_true_iff, Z.eqb_neq. tauto.
Qed.

(** C7. Delete of a task of the caller answers with the confirmation
    message and commits a database [db'] from which every row with that
    identifier is gone, while every other row and the table [users] are
    kept.  The same Delete repeated on [db'] fails with 404 "Todo not
    found" and changes nothing. *)
Theorem C7_delete_removes_then_not_found
    (db : DB) (api_key : string) (user : user_row) (todo_id : Z) :
  get_current_user db api_key = Ok user ->
  owns db user todo_id ->
  exists db',
    delete_todos db api_key todo_id = (Ok "Todo deleted successfully", db')
    /\ (forall r, In r (todos db') <-> In r (todos db) /\ t_id r <> todo_id)
    /\ users db' = users db
    /\ delete_todos db' api_key todo_id
       = (Raise (HTTPException 404 "Todo not found"), db').
Proof.
  intros Hu Hown. exists (delete_todos_by_id db todo_id).
  split; [|split; [|split]].
  - unfold delete_todos, delete_todo. rewrite Hu.
    rewrite (select_todo_bound _ _ _ (proj1 Hown)).
    destruct (lookup_todo_owned _ _ _ Hown) as [r ->]. reflexivity.
  - intros r. apply delete_todos_by_id_In.
  - reflexivity.
  - rewrite (delete_todos_not_owned _ _ user).
    + unfold refusal. now rewrite (proj1 Hown).
    + exact Hu.
    + intros [_ [r (Hin & Hid & _)]]. apply delete_todos_by_id_In in Hin. tauto.
Qed.

(** Alice deletes "Buy milk" twice. *)
Lemma C7_witness :
  owns Session.db Session.alice_row 1
  /\ exists db',
       delete_todos Session.db "key-alice" 1 = (Ok "Todo deleted successfully", db')
       /\ (forall r, In r (todos db') <-> In r (todos Session.db) /\ t_id r <> 1)
       /\ users db' = users Session.db
       /\ delete_todos db' "key-alice" 1
          = (Raise (HTTPException 404 "Todo not found"), db').
Proof.
  assert (Hown : owns Session.db Session.alice_row 1).
  { split; [reflexivity|]. eexists. split; [left; reflexivity|]. split; reflexivity. }
  split; [exact Hown|].
  exact (C7_delete_removes_then_not_found Session.db "key-alice"
           Session.alice_row 1 eq_refl Hown).
Defined.

(** ** Titles *)





(** ** Issued keys *)

Lemma find_app_Some {A} (p : A -> bool) (l l' : list A) (x : A) :
  find p l = Some x -> find p (l ++ l') = Some x.
Proof.
  induction l as [|a l IH]; simpl; [discriminate|].
  destruct (p a); auto.
Qed.

Lemma find_snoc_fresh {A} (p : A -> bool) (l : list A) (x : A) :
  (forall a, In a l -> p a = false) -> p x = true -> find p (l ++ [x]) = Some x.
Proof.
  intros Hno Hx. induction l as [|a l IH]; simpl.
  - now rewrite Hx.
  - rewrite (Hno a (or_introl eq_refl)). apply IH. intros b Hb. apply Hno. now right.
Qed.

(** No request removes or rewrites a row of [users]. *)
Lemma handle_users_extend db req :
  exists extra, users (handle db req) = users db ++ extra.
Proof.
  assert (Hsame : forall db', users db' = users db ->
                    exists extra, users db' = users db ++ extra).
  { intros db' ->. exists []. now rewrite app_nil_r. }
  destruct req as [token now body|api_key now body|api_key
                  |api_key todo_id body|api_key todo_id]; simpl.
  - unfold post_generate_api_key.
    destruct (parse_UserCreate body) as [user|]; [|now apply Hsame].
    unfold generate_api_key.
    destruct (insert_user _ _ _ _ _) as [db'|] eqn:E; [|now apply Hsame].
    apply insert_user_Some in E. destruct E as (_ & _ & ->). simpl. now eexists.
  - unfold post_todos.
    destruct (get_current_user db api_key); [|now apply Hsame].
    destruct (parse_TodoCreate body); now apply Hsame.
  - unfold get_todos. destruct (get_current_user db api_key); now apply Hsame.
  - unfold put_todos.
    destruct (get_current_user db api_key); [|now apply Hsame].
    destruct (parse_TodoUpdate body) as [tu|]; [|now apply Hsame].
    unfold update_todo.
    unfold select_todo. destruct (fits_int64 todo_id); [|now apply Hsame].
    destruct (lookup_todo _ _ _); [|now apply Hsame].
    destruct (update_fields tu); [now apply Hsame|].
    unfold update_todos_by_id.
    destruct (map _ (filter _ _)); now apply Hsame.
  - unfold delete_todos.
    destruct (get_current_user db api_key); [|now apply Hsame].
    unfold delete_todo, select_todo.
    destruct (fits_int64 todo_id); [|now apply Hsame].
    destruct (lookup_todo _ _ _); now apply Hsame.
Qed.

Lemma run_keeps_resolving api_key user reqs : forall db,
  get_current_user db api_key = Ok user ->
  get_current_user (run db reqs) api_key = Ok user.
Proof.
  induction reqs as [|req reqs IH]; intros db Hu; simpl; [exact Hu|].
  apply IH. destruct (handle_users_extend db req) as [extra He].
  unfold get_current_user, select_user_by_api_key in *. rewrite He.
  destruct (find _ (users db)) as [u|] eqn:E; [|discriminate].
  now rewrite (find_app_Some _ _ extra _ E).
Qed.

(** C9. A registration that succeeds returns the drawn token and appends
    one row to [users], with the submitted name and email and that token
    as its API key.  Resolving the returned key on the committed database
    yields this row; no other row carries the key; and after any further
    requests the key still resolves to this row. *)
Theorem C9_issued_key_resolves_to_its_user
    (db db' : DB) (token now api_key : string) (body : user_body) :
  post_generate_api_key db token now body = (Ok api_key, db') ->
  exists user,
    get_current_user db' api_key = Ok user
    /\ users db' = users db ++ [user]
    /\ ~ In user (users db)
    /\ api_key = token
    /\ u_api_key user = api_key
    /\ ub_name body = Str (u_name user)
    /\ ub_email body = Str (u_email user)
    /\ (forall u, In u (users db') -> u_api_key u = api_key -> u = user)
    /\ (forall reqs, get_current_user (run db' reqs) api_key = Ok user).
Proof.
  unfold post_generate_api_key, parse_UserCreate.
  destruct (ub_name body) as [| |name] eqn:En; try discriminate.
  destruct (ub_email body) as [| |email] eqn:Ee; try discriminate.
  simpl. intros H. apply generate_api_key_Ok in H. destruct H as [-> H].
  apply insert_user_Some in H. simpl in H. destruct H as (_ & Hk & ->).
  set (user := mk_user (next_rowid (seq_users db) (map u_id (users db)))
                       name email token now).
  assert (Hfresh : forall u, In u (users db) -> u_api_key u <> token).
  { intros u Hin Hu. apply Hk. rewrite <- Hu. now apply in_map. }
  assert (Hres : get_current_user
                   (mk_db (users db ++ [user]) (todos db)
                          (u_id user) (seq_todos db)) token = Ok user).
  { unfold get_current_user, select_user_by_api_key. simpl.
    rewrite find_snoc_fresh; trivial.
    - intros u Hin. apply String.eqb_neq. now apply Hfresh.
    - apply String.eqb_refl. }
  exists user. repeat split; trivial.
  - intros Hin. now apply (Hfresh user Hin).
  - intros u Hin Hu. simpl in Hin. apply in_app_or in Hin.
    destruct Hin as [Hin|[<-|[]]]; [|reflexivity].
    now elim (Hfresh u Hin).
  - intros reqs. now apply run_keeps_resolving.
Qed.

(** Alice's registration on the empty database, followed by the rest of
    the session. *)
Lemma C9_witness :
  post_generate_api_key empty_db "key-alice" "2024-01-01 10:00:00" Session.alice
  = (Ok "key-alice", mk_db [Session.alice_row] [] 1 0)
  /\ get_current_user (mk_db [Session.alice_row] [] 1 0) "key-alice"
     = Ok Session.alice_row
  /\ get_current_user (run (mk_db [Session.alice_row] [] 1 0)
                           (skipn 1 Session.requests)) "key-alice"
     = Ok Session.alice_row.
Proof.
  destruct (C9_issued_key_resolves_to_its_user empty_db
              (mk_db [Session.alice_row] [] 1 0)
              "key-alice" "2024-01-01 10:00:00" "key-alice" Session.alice eq_refl)
    as [user (Hres & Husers & _ & _ & _ & _ & _ & _ & Hlater)].
  simpl in Husers. injection Husers as <-.
  split; [reflexivity|]. split; [exact Hres|]. apply Hlater.
Defined.

(** ** Null fields in Update *)

Lemma parse_TodoUpdate_drop_nulls body :
  parse_TodoUpdate (drop_nulls body) = parse_TodoUpdate body.
Proof.
  destruct body as [[| |ti] [| |de] [| |st]]; reflexivity.
Qed.

Lemma Forall2_map_r {A} (R : A -> A -> Prop) (f : A -> A) (l : list A) :
  (forall a, R a (f a)) -> Forall2 R l (map f l).
Proof. intros H. induction l; simpl; constructor; auto. Qed.

Lemma Forall2_same {A} (R : A -> A -> Prop) (l : list A) :
  (forall a, R a a) -> Forall2 R l l.
Proof. intros H. induction l; constructor; auto. Qed.

(** What Update may do to a row: the identifier stays, and a description
    that is a string stays a string. *)
Lemma update_keeps_description tu r :
  t_id (set_columns (update_fields tu) r) = t_id r
  /\ (t_description r <> None ->
      t_description (set_columns (update_fields tu) r) <> None).
Proof.
  rewrite set_columns_update_fields. simpl. split; [reflexivity|].
  now destruct (TodoUpdate.description tu).
Qed.

Lemma put_todos_rows db api_key todo_id body :
  Forall2 (fun r r' => t_id r' = t_id r
                       /\ (t_description r <> None -> t_description r' <> None))
          (todos db) (todos (snd (put_todos db api_key todo_id body))).
Proof.
  assert (Hsame : forall db', todos db' = todos db ->
    Forall2 (fun r r' => t_id r' = t_id r
                         /\ (t_description r <> None -> t_description r' <> None))
            (todos db) (todos db')).
  { intros db' ->. apply Forall2_same. tauto. }
  unfold put_todos.
  destruct (get_current_user db api_key); [|now apply Hsame].
  destruct (parse_TodoUpdate body) as [tu|]; [|now apply Hsame].
  unfold update_todo.
  unfold select_todo. destruct (fits_int64 todo_id); [|now apply Hsame].
  destruct (lookup_todo _ _ _); [|now apply Hsame].
  destruct (update_fields tu) as [|kv fields] eqn:Ef; [now apply Hsame|].
  rewrite <- Ef. unfold update_todos_by_id.
  destruct (map _ (filter _ _)); [now apply Hsame|].
  destruct (respond_Todo t); simpl; apply Forall2_map_r; intros r;
    (destruct (t_id r =? todo_id); [apply update_keeps_description|tauto]).
Qed.

Lemma Forall2_In_r {A} (R : A -> A -> Prop) (l l' : list A) :
  Forall2 R l l' -> forall y, In y l' -> exists x, In x l /\ R x y.
Proof.
  induction 1 as [|x y l l' Hxy _ IH]; simpl; [easy|].
  intros z [<-|Hz].
  - exists x. auto.
  - destruct (IH z Hz) as [x' [Hin Hr]]. exists x'. auto.
Qed.

(** A request other than Create leaves no row with a NULL description
    that was not there, under the same identifier, before it. *)
Lemma handle_no_new_null db req r' :
  is_create req = false ->
  In r' (todos (handle db req)) -> t_description r' = None ->
  exists r, In r (todos db) /\ t_id r = t_id r' /\ t_description r = None.
Proof.
  assert (Hsame : forall db', todos db' = todos db ->
    In r' (todos db') -> t_description r' = None ->
    exists r, In r (todos db) /\ t_id r = t_id r' /\ t_description r = None).
  { intros db' -> Hin Hd. now exists r'. }
  destruct req as [token now body|api_key now body|api_key
                  |api_key todo_id body|api_key todo_id]; simpl;
    try discriminate; intros _.
  - unfold post_generate_api_key.
    destruct (parse_UserCreate body) as [user|]; [|now apply Hsame].
    unfold generate_api_key.
    destruct (insert_user _ _ _ _ _) as [db'|] eqn:E; [|now apply Hsame].
    apply insert_user_Some in E. destruct E as (_ & _ & ->). now apply Hsame.
  - unfold get_todos. destruct (get_current_user db api_key); now apply Hsame.
  - intros Hin Hd.
    destruct (Forall2_In_r _ _ _ (put_todos_rows db api_key todo_id body) r' Hin)
      as [r (Hr & Hid & Hdesc)].
    exists r. split; [exact Hr|]. split; [now symmetry|].
    destruct (t_description r) as [d|]; [|reflexivity].
    exfalso. now apply Hdesc.
  - unfold delete_todos.
    destruct (get_current_user db api_key); [|now apply Hsame].
    unfold delete_todo, select_todo.
    destruct (fits_int64 todo_id); [|now apply Hsame].
    destruct (lookup_todo _ _ _); [|now apply Hsame].
    simpl. intros Hin Hd. apply filter_In in Hin. exists r'. tauto.
Qed.

(** C10. An Update body answers and commits the same as the body with its
    null fields dropped.  Update keeps the rows of [todos] in place, each
    with its identifier, and a description that is a string before the
    request is a string after it.  No request other than Create leaves a
    NULL description behind that was not there before. *)
Theorem C10_null_is_absent_in_update
    (db : DB) (api_key : string) (todo_id : Z) (body : update_body) :
  put_todos db api_key todo_id body = put_todos db api_key todo_id (drop_nulls body)
  /\ Forall2 (fun r r' => t_id r' = t_id r
                          /\ (t_description r <> None -> t_description r' <> None))
             (todos db) (todos (snd (put_todos db api_key todo_id body)))
  /\ (forall req r',
        is_create req = false ->
        In r' (todos (handle db req)) -> t_description r' = None ->
        exists r, In r (todos db) /\ t_id r = t_id r' /\ t_description r = None).
Proof.
  split; [|split].
  - unfold put_todos. now rewrite parse_TodoUpdate_drop_nulls.
  - apply put_todos_rows.
  - intros req r'. apply handle_no_new_null.
Qed.

(** Bob sends [{"description": null}] for his task, whose description is
    "before noon". *)
Lemma C10_witness :
  let body := mk_update_body Absent Null Absent in
  put_todos Session.db "key-bob" 2 body
  = put_todos Session.db "key-bob" 2 (mk_update_body Absent Absent Absent)
  /\ fst (put_todos Session.db "key-bob" 2 body)
     = Ok (Todo.mk 2 "Call mum" (Some "before noon") pending "2024-01-01 11:30:00")
  /\ (forall r', In r' (todos (handle Session.db (PutTodos "key-bob" 2 body))) ->
        t_description r' = None ->
        exists r, In r (todos Session.db) /\ t_id r = t_id r'
                  /\ t_description r = None).
Proof.
  intros body.
  destruct (C10_null_is_absent_in_update Session.db "key-bob" 2 body)
    as (Hsame & _ & Honly).
  split; [exact Hsame|]. split; [reflexivity|].
  intros r'. exact (Honly (PutTodos "key-bob" 2 body) r' eq_refl).
Defined.

(** * Further properties of the handlers *)

(** ** The schema as an invariant *)

(** X1. After startup on a fresh file and any sequence of requests, the
    database satisfies [db_ok]: task and user identifiers are distinct and
    not above their AUTOINCREMENT counter, emails and API keys are
    distinct, every stored status is "pending" or "completed", and the
    owner of every task is a stored user. *)
Theorem X1_reachable_databases_satisfy_the_schema (db : DB) :
  reachable db -> db_ok db.
Proof.
  intros [reqs ->]. revert reqs.
  assert (H : forall reqs d, db_ok d -> db_ok (run d reqs)).
  { induction reqs as [|req reqs IH]; intros d Hd; simpl; [exact Hd|].
    apply IH, handle_ok, Hd. }
  intros reqs. apply H. exact empty_db_ok.
Qed.

Lemma X1_witness : reachable Session.db /\ db_ok Session.db.
Proof.
  assert (H : reachable Session.db) by now exists Session.requests.
  split; [exact H|]. exact (X1_reachable_databases_satisfy_the_schema _ H).
Defined.

(** ** Outcomes of a registration *)







(** ** Validation of an Update body *)

(** X4. A status that is a string other than "pending" and "completed"
    (the comparison is exact) makes Update fail with a validation error
    before the store is asked: nothing is committed, whether or not the
    caller owns the task. *)
Theorem X4_update_with_an_unknown_status_is_rejected
    (db : DB) (api_key : string) (user : user_row) (todo_id : Z)
    (body : update_body) (s : string) :
  get_current_user db api_key = Ok user ->
  pb_status body = Str s ->
  s <> "pending" -> s <> "completed" ->
  put_todos db api_key todo_id body = (Raise RequestValidationError, db).
Proof.
  intros Hu Hs Hp Hc. unfold put_todos, parse_TodoUpdate, optional_status.
  rewrite Hu, Hs. unfold status_of_text.
  apply String.eqb_neq in Hp. apply String.eqb_neq in Hc. now rewrite Hp, Hc.
Qed.

(** Alice writes the status of her own task with a capital letter. *)
Lemma X4_witness :
  put_todos Session.db "key-alice" 1 (mk_update_body (Str "Milk") Absent (Str "Completed"))
  = (Raise RequestValidationError, Session.db).
Proof.
  apply (X4_update_with_an_unknown_status_is_rejected Session.db "key-alice"
           Session.alice_row 1
           (mk_update_body (Str "Milk") Absent (Str "Completed")) "Completed"
           eq_refl eq_refl);
    discriminate.
Defined.

(** ** Repeating an Update *)

Lemma find_map_stable {A} (p : A -> bool) (f : A -> A) (l : list A) :
  (forall a, p (f a) = p a) -> find p (map f l) = option_map f (find p l).
Proof.
  intros Hp. induction l as [|a l IH]; simpl; [reflexivity|].
  rewrite Hp. now destruct (p a).
Qed.

Lemma filter_map_stable {A} (p : A -> bool) (f : A -> A) (l : list A) :
  (forall a, p (f a) = p a) -> filter p (map f l) = map f (filter p l).
Proof.
  intros Hp. induction l as [|a l IH]; simpl; [reflexivity|].
  rewrite Hp. destruct (p a); simpl; now rewrite IH.
Qed.

Lemma set_columns_twice tu r :
  set_columns (update_fields tu) (set_columns (update_fields tu) r)
  = set_columns (update_fields tu) r.
Proof.
  rewrite !set_columns_update_fields. simpl.
  now destruct tu as [[ti|] [de|] [st|]].
Qed.

Lemma set_columns_keeps tu r :
  t_id (set_columns (update_fields tu) r) = t_id r
  /\ t_user_id (set_columns (update_fields tu) r) = t_user_id r
  /\ t_created_at (set_columns (update_fields tu) r) = t_created_at r.
Proof. rewrite set_columns_update_fields. simpl. auto. Qed.

Lemma update_todos_by_id_twice db tu todo_id :
  update_todos_by_id (snd (update_todos_by_id db (update_fields tu) todo_id))
                     (update_fields tu) todo_id
  = update_todos_by_id db (update_fields tu) todo_id.
Proof.
  unfold update_todos_by_id. simpl.
  set (patch := set_columns (update_fields tu)).
  set (upd := fun r => if t_id r =? todo_id then patch r else r).
  assert (Hid : forall r, (t_id (upd r) =? todo_id) = (t_id r =? todo_id)).
  { intros r. unfold upd. destruct (t_id r =? todo_id) eqn:E; [|exact E].
    unfold patch. now rewrite (proj1 (set_columns_keeps tu r)). }
  assert (Hupd : forall r, upd (upd r) = upd r).
  { intros r. unfold upd at 1. rewrite Hid. unfold upd.
    destruct (t_id r =? todo_id); [|reflexivity].
    apply set_columns_twice. }
  f_equal.
  - rewrite (filter_map_stable _ upd _ Hid), map_map.
    apply map_ext_in. intros r Hr.
    apply filter_In in Hr. destruct Hr as [_ Hr]. unfold upd. rewrite Hr.
    apply set_columns_twice.
  - f_equal. rewrite map_map. apply map_ext. exact Hupd.
Qed.

Lemma lookup_todo_after_update db tu todo_id user_id todo :
  lookup_todo db todo_id user_id = Some todo ->
  lookup_todo (snd (update_todos_by_id db (update_fields tu) todo_id)) todo_id user_id
  = Some (set_columns (update_fields tu) todo).
Proof.
  intros Hsel. pose proof (lookup_todo_Some _ _ _ _ Hsel) as (_ & Hid & _).
  unfold lookup_todo in *. simpl.
  rewrite find_map_stable.
  - rewrite Hsel. simpl. apply Z.eqb_eq in Hid. now rewrite Hid.
  - intros r. destruct (t_id r =? todo_id) eqn:E; [|now rewrite E].
    destruct (set_columns_keeps tu r) as (-> & -> & _). now rewrite E.
Qed.

Lemma update_todo_users db todo_id tu user :
  users (snd (update_todo db todo_id tu user)) = users db.
Proof.
  unfold update_todo.
  unfold select_todo. destruct (fits_int64 todo_id); [|reflexivity].
  destruct (lookup_todo _ _ _); [|reflexivity].
  destruct (update_fields tu); [reflexivity|].
  unfold update_todos_by_id. now destruct (map _ (filter _ _)).
Qed.

Lemma update_todo_twice db todo_id tu user :
  update_todo (snd (update_todo db todo_id tu user)) todo_id tu user
  = update_todo db todo_id tu user.
Proof.
  destruct (fits_int64 todo_id) eqn:Hfit.
  - unfold update_todo at 2 3. rewrite (select_todo_bound db _ _ Hfit).
    destruct (lookup_todo db todo_id (u_id user)) as [todo|] eqn:Hsel.
    + destruct (update_fields tu) as [|kv fields] eqn:Ef.
      * simpl. unfold update_todo.
        now rewrite (select_todo_bound db _ _ Hfit), Hsel, Ef.
      * rewrite <- Ef.
        pose proof (update_todos_by_id_twice db tu todo_id) as Htwice.
        pose proof (lookup_todo_after_update db tu todo_id (u_id user) todo Hsel)
          as Hsel'.
        destruct (update_todos_by_id db (update_fields tu) todo_id)
          as [returning db'] eqn:Eu.
        simpl in Htwice, Hsel'.
        destruct returning as [|r rest].
        -- simpl. unfold update_todo.
           rewrite (select_todo_bound db _ _ Hfit), Hsel, Ef.
           rewrite <- Ef, Eu. reflexivity.
        -- simpl. unfold update_todo.
           rewrite (select_todo_bound db' _ _ Hfit), Hsel', Ef.
           rewrite <- Ef, Htwice. reflexivity.
    + simpl. unfold update_todo.
      now rewrite (select_todo_bound db _ _ Hfit), Hsel.
  - unfold update_todo at 2 3. rewrite (select_todo_unbound db _ _ Hfit).
    simpl. unfold update_todo. now rewrite (select_todo_unbound db _ _ Hfit).
Qed.

(** X5. Update is idempotent: the same request sent again, right after
    the first, gets the same response and leaves the database the first
    one committed.  This holds for every database, key, identifier and
    body, also when the first request was refused. *)
Theorem X5_update_is_idempotent
    (db : DB) (api_key : string) (todo_id : Z) (body : update_body) :
  put_todos (snd (put_todos db api_key todo_id body)) api_key todo_id body
  = put_todos db api_key todo_id body.
Proof.
  unfold put_todos at 2 3.
  destruct (get_current_user db api_key) as [user|e] eqn:Hu.
  - destruct (parse_TodoUpdate body) as [tu|] eqn:Hb.
    + pose proof (update_todo_twice db todo_id tu user) as Htwice.
      pose proof (update_todo_users db todo_id tu user) as Husers.
      destruct (update_todo db todo_id tu user) as [[row|e] db'] eqn:Eu;
        simpl in *; unfold put_todos;
        (assert (Hu' : get_current_user db' api_key = Ok user)
           by (unfold get_current_user, select_user_by_api_key in *;
               now rewrite Husers));
        now rewrite Hu', Hb, Htwice.
    + simpl. unfold put_todos. now rewrite Hu, Hb.
  - simpl. unfold put_todos. now rewrite Hu.
Qed.

(** ** Task identifiers over time *)

Lemma put_todos_rows_rel (R : todo_row -> todo_row -> Prop) db api_key todo_id body :
  (forall r, R r r) ->
  (forall tu r, R r (set_columns (update_fields tu) r)) ->
  Forall2 R (todos db) (todos (snd (put_todos db api_key todo_id body))).
Proof.
  intros Hrefl Hset.
  assert (Hsame : forall db', todos db' = todos db -> Forall2 R (todos db) (todos db')).
  { intros db' ->. now apply Forall2_same. }
  unfold put_todos.
  destruct (get_current_user db api_key); [|now apply Hsame].
  destruct (parse_TodoUpdate body) as [tu|]; [|now apply Hsame].
  unfold update_todo.
  unfold select_todo. destruct (fits_int64 todo_id); [|now apply Hsame].
  destruct (lookup_todo _ _ _); [|now apply Hsame].
  destruct (update_fields tu) as [|kv fields] eqn:Ef; [now apply Hsame|].
  rewrite <- Ef. unfold update_todos_by_id.
  destruct (map _ (filter _ _)); [now apply Hsame|].
  destruct (respond_Todo t); simpl; apply Forall2_map_r; intros r;
    destruct (t_id r =? todo_id); auto.
Qed.

Lemma put_todos_seq_todos db api_key todo_id body :
  seq_todos (snd (put_todos db api_key todo_id body)) = seq_todos db.
Proof.
  unfold put_todos.
  destruct (get_current_user db api_key); [|reflexivity].
  destruct (parse_TodoUpdate body) as [tu|]; [|reflexivity].
  unfold update_todo.
  unfold select_todo. destruct (fits_int64 todo_id); [|reflexivity].
  destruct (lookup_todo _ _ _); [|reflexivity].
  destruct (update_fields tu); [reflexivity|].
  unfold update_todos_by_id.
  destruct (map _ (filter _ _)); [reflexivity|].
  now destruct (respond_Todo t).
Qed.

(** Where a row found after a request comes from: a row that was there,
    with the same identifier, owner and timestamp, or an INSERT that took
    an identifier above the counter. *)
Lemma handle_row_origin db req r' :
  In r' (todos (handle db req)) ->
  (exists r, In r (todos db) /\ t_id r = t_id r'
             /\ t_user_id r = t_user_id r' /\ t_created_at r = t_created_at r')
  \/ seq_todos db < t_id r'.
Proof.
  assert (Hsame : forall db', todos db' = todos db -> In r' (todos db') ->
    (exists r, In r (todos db) /\ t_id r = t_id r'
               /\ t_user_id r = t_user_id r' /\ t_created_at r = t_created_at r')
    \/ seq_todos db < t_id r').
  { intros db' -> Hin. left. now exists r'. }
  destruct req as [token now body|api_key now body|api_key
                  |api_key todo_id body|api_key todo_id]; simpl.
  - unfold post_generate_api_key.
    destruct (parse_UserCreate body) as [user|]; [|now apply Hsame].
    unfold generate_api_key.
    destruct (insert_user _ _ _ _ _) as [db'|] eqn:E; [|now apply Hsame].
    apply insert_user_Some in E. destruct E as (_ & _ & ->). now apply Hsame.
  - unfold post_todos.
    destruct (get_current_user db api_key) as [user|]; [|now apply Hsame].
    destruct (parse_TodoCreate body) as [todo|]; [|now apply Hsame].
    simpl. intros Hin. apply in_app_or in Hin. destruct Hin as [Hin|[<-|[]]].
    + left. now exists r'.
    + right. simpl. apply next_rowid_gt_seq.
  - unfold get_todos. destruct (get_current_user db api_key); now apply Hsame.
  - intros Hin. left.
    apply (Forall2_In_r _ _ _
             (put_todos_rows_rel
                (fun r r' => t_id r = t_id r' /\ t_user_id r = t_user_id r'
                             /\ t_created_at r = t_created_at r')
                db api_key todo_id body
                (fun r => conj eq_refl (conj eq_refl eq_refl))
                (fun tu r =>
                   match set_columns_keeps tu r with
                   | conj a (conj b c) => conj (eq_sym a) (conj (eq_sym b) (eq_sym c))
                   end))).
    exact Hin.
  - unfold delete_todos.
    destruct (get_current_user db api_key); [|now apply Hsame].
    unfold delete_todo, select_todo.
    destruct (fits_int64 todo_id); [|now apply Hsame].
    destruct (lookup_todo _ _ _); [|now apply Hsame].
    simpl. intros Hin. apply filter_In in Hin. left. exists r'. tauto.
Qed.

Lemma handle_seq_todos_mono db req : seq_todos db <= seq_todos (handle db req).
Proof.
  destruct req as [token now body|api_key now body|api_key
                  |api_key todo_id body|api_key todo_id]; simpl.
  - unfold post_generate_api_key.
    destruct (parse_UserCreate body) as [user|]; [|simpl; lia].
    unfold generate_api_key.
    destruct (insert_user _ _ _ _ _) as [db'|] eqn:E; [|simpl; lia].
    apply insert_user_Some in E. destruct E as (_ & _ & ->). simpl. lia.
  - unfold post_todos.
    destruct (get_current_user db api_key) as [user|]; [|simpl; lia].
    destruct (parse_TodoCreate body) as [todo|]; [|simpl; lia].
    simpl. pose proof (next_rowid_gt_seq (seq_todos db) (map t_id (todos db))). lia.
  - unfold get_todos. destruct (get_current_user db api_key); simpl; lia.
  - rewrite put_todos_seq_todos. lia.
  - unfold delete_todos.
    destruct (get_current_user db api_key); [|simpl; lia].
    unfold delete_todo, select_todo.
    destruct (fits_int64 todo_id); [|simpl; lia].
    destruct (lookup_todo _ _ _); simpl; lia.
Qed.

Lemma run_seq_todos_mono reqs : forall db, seq_todos db <= seq_todos (run db reqs).
Proof.
  induction reqs as [|req reqs IH]; intros db; simpl; [lia|].
  pose proof (handle_seq_todos_mono db req). specialize (IH (handle db req)). lia.
Qed.

Lemma post_todos_Ok_id db api_key now body todo db' :
  post_todos db api_key now body = (Ok todo, db') ->
  Todo.id todo = next_rowid (seq_todos db) (map t_id (todos db)).
Proof.
  unfold post_todos.
  destruct (get_current_user db api_key) as [user|]; [|discriminate].
  destruct (parse_TodoCreate body) as [tc|]; [|discriminate].
  simpl. now intros [= <- _].
Qed.

(** X6. An identifier is never given twice: the identifier Create assigns
    is above the identifier of every task the database held at any
    earlier time, deleted since or not. *)
Theorem X6_task_identifiers_are_never_reused
    (db db' : DB) (reqs : list request) (api_key now : string)
    (body : todo_body) (todo : Todo.t) (r : todo_row) :
  db_ok db ->
  In r (todos db) ->
  post_todos (run db reqs) api_key now body = (Ok todo, db') ->
  t_id r < Todo.id todo.
Proof.
  intros Hok Hin Hpost. apply post_todos_Ok_id in Hpost. rewrite Hpost.
  pose proof (ok_todo_seq _ Hok) as Hseq. rewrite Forall_forall in Hseq.
  specialize (Hseq r Hin). cbv beta in Hseq.
  pose proof (run_seq_todos_mono reqs db).
  pose proof (next_rowid_gt_seq (seq_todos (run db reqs))
                                (map t_id (todos (run db reqs)))).
  lia.
Qed.

(** Alice deletes her latest task, number 3, and creates another one: it
    is number 4. *)
Lemma X6_witness :
  let r := mk_todo 3 "Pay rent" None "pending" 1 "2024-01-01 12:00:00" in
  let reqs := [DeleteTodos "key-alice" 3] in
  In r (todos Session.db)
  /\ ~ In r (todos (run Session.db reqs))
  /\ fst (post_todos (run Session.db reqs) "key-alice" "2024-01-05 09:00:00"
            (mk_todo_body (Str "Pay rent again") Absent))
     = Ok (Todo.mk 4 "Pay rent again" None pending "2024-01-05 09:00:00")
  /\ t_id r < 4.
Proof.
  intros r reqs.
  assert (Hin : In r (todos Session.db)) by (right; right; now left).
  split; [exact Hin|]. split.
  - intros [H|[H|[]]]; discriminate.
  - split; [reflexivity|].
    exact (X6_task_identifiers_are_never_reused Session.db _ reqs "key-alice"
             "2024-01-05 09:00:00" (mk_todo_body (Str "Pay rent again") Absent)
             (Todo.mk 4 "Pay rent again" None pending "2024-01-05 09:00:00") r
             Session_db_ok Hin eq_refl).
Defined.

(** X7. The identifier of a task denotes the same owner and the same
    creation timestamp for as long as the service runs: a row found under
    that identifier after any sequence of requests has the owner and the
    timestamp the task had. *)
Theorem X7_owner_and_timestamp_of_a_task_never_change
    (db : DB) (reqs : list request) (r r' : todo_row) :
  db_ok db ->
  In r (todos db) ->
  In r' (todos (run db reqs)) ->
  t_id r' = t_id r ->
  t_user_id r' = t_user_id r /\ t_created_at r' = t_created_at r.
Proof.
  intros Hok Hin. revert r'.
  induction reqs as [|req reqs IH] using rev_ind; intros r' Hin' Hid.
  - simpl in Hin'.
    assert (r' = r) as ->; [|auto].
    apply (NoDup_map_inj t_id (todos db)); trivial. apply (ok_todo_ids _ Hok).
  - unfold run in Hin'. rewrite fold_left_app in Hin'. simpl in Hin'.
    fold (run db reqs) in Hin'.
    apply handle_row_origin in Hin'.
    destruct Hin' as [[r0 (Hin0 & Hid0 & Hown0 & Hat0)]|Hnew].
    + destruct (IH r0 Hin0) as [Ho Ha]; [congruence|].
      split; congruence.
    + exfalso.
      pose proof (ok_todo_seq _ Hok) as Hseq. rewrite Forall_forall in Hseq.
      specialize (Hseq r Hin). cbv beta in Hseq.
      pose proof (run_seq_todos_mono reqs db). lia.
Qed.

(** Task 1 after Bob's and Alice's later requests and an Update of it. *)
Lemma X7_witness :
  let r := mk_todo 1 "Buy milk" None "pending" 1 "2024-01-01 11:00:00" in
  let r' := mk_todo 1 "Buy oat milk" (Some "2 l") "completed" 1 "2024-01-01 11:00:00" in
  let reqs := skipn 3 Session.requests
              ++ [PutTodos "key-alice" 1
                    (mk_update_body (Str "Buy oat milk") (Str "2 l") (Str "completed"));
                  PutTodos "key-bob" 1
                    (mk_update_body (Str "Bob was here") Absent Absent)] in
  In r (todos Session.db_before)
  /\ In r' (todos (run Session.db_before reqs))
  /\ t_user_id r' = t_user_id r /\ t_created_at r' = t_created_at r.
Proof.
  intros r r' reqs.
  assert (Hin : In r (todos Session.db_before)) by now left.
  assert (Hin' : In r' (todos (run Session.db_before reqs))) by now left.
  split; [exact Hin|]. split; [exact Hin'|].
  exact (X7_owner_and_timestamp_of_a_task_never_change Session.db_before reqs
           r r' Session_db_before_ok Hin Hin' eq_refl).
Defined.

(** ** Credentials over time *)

Lemma run_users_extend reqs : forall db,
  exists extra, users (run db reqs) = users db ++ extra.
Proof.
  induction reqs as [|req reqs IH]; intros db; simpl.
  - exists []. now rewrite app_nil_r.
  - destruct (handle_users_extend db req) as [e1 H1].
    destruct (IH (handle db req)) as [e2 H2].
    exists (e1 ++ e2). now rewrite H2, H1, app_assoc.
Qed.

(** X8. No route revokes or replaces a credential: [users] only grows at
    its end, and an API key that resolves to a user resolves to the same
    user after any sequence of requests. *)
Theorem X8_api_keys_are_never_revoked
    (db : DB) (reqs : list request) (api_key : string) (user : user_row) :
  get_current_user db api_key = Ok user ->
  get_current_user (run db reqs) api_key = Ok user
  /\ exists extra, users (run db reqs) = users db ++ extra.
Proof.
  intros Hu. split.
  - now apply run_keeps_resolving.
  - apply run_users_extend.
Qed.

(** Bob's key across the task requests of the session and a registration
    that tries to take his email. *)
Lemma X8_witness :
  let reqs := skipn 2 Session.requests
              ++ [PostGenerateApiKey "key-bob-2" "2024-03-01 08:00:00" Session.bob;
                  DeleteTodos "key-bob" 2] in
  get_current_user Session.db_users "key-bob" = Ok Session.bob_row
  /\ get_current_user (run Session.db_users reqs) "key-bob" = Ok Session.bob_row
  /\ exists extra, users (run Session.db_users reqs) = users Session.db_users ++ extra.
Proof.
  intros reqs. split; [reflexivity|].
  exact (X8_api_keys_are_never_revoked Session.db_users reqs "key-bob"
           Session.bob_row eq_refl).
Defined.

(** ** Isolation between callers *)

Lemma filter_map_untouched {A} (p : A -> bool) (f : A -> A) (l : list A) :
  (forall a, In a l -> f a = a \/ (p a = false /\ p (f a) = false)) ->
  filter p (map f l) = filter p l.
Proof.
  induction l as [|a l IH]; simpl; [reflexivity|].
  intros H. rewrite IH by (intros b Hb; apply H; now right).
  destruct (H a (or_introl eq_refl)) as [->|[-> ->]]; reflexivity.
Qed.

Lemma filter_filter_untouched {A} (p q : A -> bool) (l : list A) :
  (forall a, In a l -> q a = false -> p a = false) ->
  filter p (filter q l) = filter p l.
Proof.
  induction l as [|a l IH]; simpl; [reflexivity|].
  intros H. rewrite <- IH by (intros b Hb; apply H; now right).
  destruct (q a) eqn:Eq; simpl; [reflexivity|].
  now rewrite (H a (or_introl eq_refl) Eq).
Qed.

(** The rows a caller owns after a request that was not made with a key
    of that caller. *)
Lemma read_todos_of_another_caller db req me :
  db_ok db ->
  (forall key u, request_key req = Some key ->
                 get_current_user db key = Ok u -> u_id u <> u_id me) ->
  read_todos (handle db req) me = read_todos db me.
Proof.
  intros Hok Hother.
  pose proof (ok_todo_ids _ Hok) as Hnd.
  assert (Hsame : forall db', todos db' = todos db ->
                    read_todos db' me = read_todos db me).
  { intros db' E. unfold read_todos, select_todos_by_user. now rewrite E. }
  destruct req as [token now body|api_key now body|api_key
                  |api_key todo_id body|api_key todo_id]; simpl in *.
  - unfold post_generate_api_key.
    destruct (parse_UserCreate body) as [user|]; [|now apply Hsame].
    unfold generate_api_key.
    destruct (insert_user _ _ _ _ _) as [db'|] eqn:E; [|now apply Hsame].
    apply insert_user_Some in E. destruct E as (_ & _ & ->). now apply Hsame.
  - unfold post_todos.
    destruct (get_current_user db api_key) as [u|] eqn:Hu; [|now apply Hsame].
    destruct (parse_TodoCreate body) as [todo|]; [|now apply Hsame].
    specialize (Hother api_key u eq_refl Hu).
    unfold read_todos, select_todos_by_user. simpl.
    rewrite filter_app. simpl.
    apply Z.eqb_neq in Hother. rewrite Hother. now rewrite app_nil_r.
  - unfold get_todos. destruct (get_current_user db api_key); now apply Hsame.
  - unfold put_todos.
    destruct (get_current_user db api_key) as [u|] eqn:Hu; [|now apply Hsame].
    destruct (parse_TodoUpdate body) as [tu|]; [|now apply Hsame].
    specialize (Hother api_key u eq_refl Hu).
    unfold update_todo.
    unfold select_todo. destruct (fits_int64 todo_id); [|now apply Hsame].
    destruct (lookup_todo db todo_id (u_id u)) as [todo|] eqn:Hsel; [|now apply Hsame].
    apply lookup_todo_Some in Hsel. destruct Hsel as (Hin & Hid & Hown).
    destruct (update_fields tu) as [|kv fields] eqn:Ef; [now apply Hsame|].
    rewrite <- Ef. unfold update_todos_by_id.
    destruct (map _ (filter _ _)) as [|r0 rest]; [now apply Hsame|].
    assert (E : read_todos
                  (mk_db (users db)
                     (map (fun r => if t_id r =? todo_id
                                    then set_columns (update_fields tu) r else r)
                          (todos db))
                     (seq_users db) (seq_todos db)) me
                = read_todos db me).
    { unfold read_todos, select_todos_by_user. simpl.
      apply filter_map_untouched. intros r Hr.
      destruct (t_id r =? todo_id) eqn:Et; [right|now left].
      apply Z.eqb_eq in Et.
      assert (r = todo) as ->
        by (apply (NoDup_map_inj t_id (todos db)); trivial; congruence).
      destruct (set_columns_keeps tu todo) as (_ & -> & _).
      rewrite Hown. apply Z.eqb_neq in Hother. auto. }
    now destruct (respond_Todo r0).
  - unfold delete_todos.
    destruct (get_current_user db api_key) as [u|] eqn:Hu; [|now apply Hsame].
    specialize (Hother api_key u eq_refl Hu).
    unfold delete_todo.
    unfold select_todo. destruct (fits_int64 todo_id); [|now apply Hsame].
    destruct (lookup_todo db todo_id (u_id u)) as [todo|] eqn:Hsel; [|now apply Hsame].
    apply lookup_todo_Some in Hsel. destruct Hsel as (Hin & Hid & Hown).
    unfold read_todos, select_todos_by_user. simpl.
    apply filter_filter_untouched. intros r Hr Hq.
    apply negb_false_iff, Z.eqb_eq in Hq.
    assert (r = todo) as ->
      by (apply (NoDup_map_inj t_id (todos db)); trivial; congruence).
    rewrite Hown. now apply Z.eqb_neq.
Qed.

(** X9. What List answers a caller does not depend on what other callers
    do: on a database satisfying [db_ok], after any one request that is
    not made with a key of that caller (a registration, a request with an
    unknown key, a Create, Update or Delete of somebody else, whatever
    identifier it names), the caller's List answers as before. *)
Theorem X9_requests_of_others_do_not_change_my_list
    (db : DB) (req : request) (api_key : string) (me : user_row) :
  db_ok db ->
  get_current_user db api_key = Ok me ->
  (forall key u, request_key req = Some key ->
                 get_current_user db key = Ok u -> u_id u <> u_id me) ->
  fst (get_todos (handle db req) api_key) = fst (get_todos db api_key).
Proof.
  intros Hok Hme Hother.
  pose proof (run_keeps_resolving api_key me [req] db Hme) as Hme'. simpl in Hme'.
  unfold get_todos. rewrite Hme, Hme'. simpl.
  now rewrite (read_todos_of_another_caller _ _ _ Hok Hother).
Qed.

(** Bob names Alice's task 1 in a Delete, and then deletes his own task,
    while Alice lists. *)
Lemma X9_witness :
  fst (get_todos (handle Session.db (DeleteTodos "key-bob" 1)) "key-alice")
  = fst (get_todos Session.db "key-alice")
  /\ fst (get_todos (handle Session.db (DeleteTodos "key-bob" 2)) "key-alice")
     = fst (get_todos Session.db "key-alice").
Proof.
  assert (Hother : forall todo_id key u,
            request_key (DeleteTodos "key-bob" todo_id) = Some key ->
            get_current_user Session.db key = Ok u ->
            u_id u <> u_id Session.alice_row).
  { intros todo_id key u [= <-] [= <-]. discriminate. }
  split.
  - exact (X9_requests_of_others_do_not_change_my_list Session.db
             (DeleteTodos "key-bob" 1) "key-alice" Session.alice_row
             Session_db_ok eq_refl (Hother 1)).
  - exact (X9_requests_of_others_do_not_change_my_list Session.db
             (DeleteTodos "key-bob" 2) "key-alice" Session.alice_row
             Session_db_ok eq_refl (Hother 2)).
Defined.

(** ** Create followed by Delete *)




(** ** The errors a request can be answered with *)


Lemma respond_Todo_literal r :
  status_of_text (t_status r) <> None -> exists t, respond_Todo r = Ok t.
Proof.
  intros H. unfold respond_Todo, Todo_of_row.
  destruct (status_of_text (t_status r)); [now eexists|contradiction].
Qed.

Lemma put_todos_owned_answer db api_key user todo_id body tu todo :
  db_ok db ->
  get_current_user db api_key = Ok user ->
  parse_TodoUpdate body = Some tu ->
  fits_int64 todo_id = true ->
  lookup_todo db todo_id (u_id user) = Some todo ->
  exists t,
    put_todos db api_key todo_id body
    = (Ok t, snd (update_todo db todo_id tu user))
    /\ Todo_of_row (set_columns (update_fields tu) todo) = Some t
    /\ In (set_columns (update_fields tu) todo)
          (todos (snd (update_todo db todo_id tu user))).
Proof.
  intros Hok Hu Hb Hfit Hsel.
  apply lookup_todo_Some in Hsel. destruct Hsel as (Hin & Hid & Hown).
  rewrite <- Hid in Hfit.
  pose proof (update_todo_owned db tu user todo Hfit (ok_todo_ids _ Hok) Hin Hown)
    as Hupd.
  rewrite Hid in Hupd.
  assert (Hst : status_of_text (t_status (set_columns (update_fields tu) todo)) <> None).
  { rewrite set_columns_update_fields. simpl.
    destruct (TodoUpdate.status tu) as [st|].
    - now rewrite status_of_text_status_text.
    - pose proof (ok_status _ Hok) as H. rewrite Forall_forall in H. auto. }
  destruct (respond_Todo_literal _ Hst) as [t Ht].
  exists t. unfold put_todos. rewrite Hu, Hb, Hupd. simpl. rewrite Ht.
  split; [reflexivity|]. split.
  - unfold respond_Todo in Ht. destruct (Todo_of_row _); [|discriminate].
    now injection Ht as ->.
  - apply in_map_iff. exists todo. split; [|exact Hin].
    apply Z.eqb_eq in Hid. now rewrite Hid.
Qed.



(** ** Update followed by List *)

(** X12. On a database satisfying [db_ok], the task an Update answers
    with is what the caller's next List shows under that identifier. *)
Theorem X12_list_shows_the_task_update_returned
    (db db' : DB) (api_key : string) (todo_id : Z)
    (body : update_body) (todo : Todo.t) :
  db_ok db ->
  put_todos db api_key todo_id body = (Ok todo, db') ->
  Todo.id todo = todo_id
  /\ exists tasks,
       get_todos db' api_key = (Ok tasks, db')
       /\ In todo tasks
       /\ (forall t, In t tasks -> Todo.id t = todo_id -> t = todo).
Proof.
  intros Hok Hput.
  assert (Hok' : db_ok db').
  { assert (E : handle db (PutTodos api_key todo_id body) = db')
      by (simpl; now rewrite Hput).
    rewrite <- E. now apply handle_ok. }
  destruct (get_current_user db api_key) as [user|e] eqn:Hu;
    [|unfold put_todos in Hput; rewrite Hu in Hput; discriminate].
  destruct (parse_TodoUpdate body) as [tu|] eqn:Hb;
    [|unfold put_todos in Hput; rewrite Hu, Hb in Hput; discriminate].
  destruct (fits_int64 todo_id) eqn:Hfit;
    [|unfold put_todos, update_todo in Hput;
      rewrite Hu, Hb, (select_todo_unbound _ _ _ Hfit) in Hput; discriminate].
  destruct (lookup_todo db todo_id (u_id user)) as [row|] eqn:Hsel;
    [|unfold put_todos, update_todo in Hput;
      rewrite Hu, Hb, (select_todo_bound _ _ _ Hfit), Hsel in Hput;
      discriminate].
  destruct (put_todos_owned_answer _ _ _ _ _ _ _ Hok Hu Hb Hfit Hsel)
    as [t (Hput' & Hview & Hin)].
  rewrite Hput in Hput'. injection Hput' as <- ->.
  apply lookup_todo_Some in Hsel. destruct Hsel as (_ & Hid & Hown).
  destruct (set_columns_keeps tu row) as (Hid' & Hown' & _).
  assert (Htid : Todo.id todo = todo_id).
  { apply Todo_of_row_id in Hview. congruence. }
  split; [exact Htid|].
  assert (Hu' : get_current_user (snd (update_todo db todo_id tu user)) api_key
                = Ok user).
  { unfold get_current_user, select_user_by_api_key in *.
    now rewrite update_todo_users. }
  destruct (get_todos_ok _ api_key user Hu' Hok') as [tasks [Hget Hmap]].
  exists tasks. split; [exact Hget|].
  pose proof (map_Some_In _ _ _ Hmap) as HIn. split.
  - apply HIn. eexists. split; [|exact Hview].
    apply read_todos_In. split; [exact Hin|congruence].
  - intros t Ht Hidt. apply HIn in Ht. destruct Ht as [r [Hr Hrt]].
    apply read_todos_In in Hr. destruct Hr as [Hr _].
    assert (r = set_columns (update_fields tu) row) as ->.
    { apply (NoDup_map_inj t_id (todos (snd (update_todo db todo_id tu user))));
        trivial.
      - apply (ok_todo_ids _ Hok').
      - apply Todo_of_row_id in Hrt. congruence. }
    congruence.
Qed.

(** Alice renames task 3 and lists. *)
Lemma X12_witness :
  let body := mk_update_body (Str "Pay the rent") Absent Absent in
  let todo := Todo.mk 3 "Pay the rent" None pending "2024-01-01 12:00:00" in
  fst (put_todos Session.db "key-alice" 3 body) = Ok todo
  /\ exists tasks,
       get_todos (snd (put_todos Session.db "key-alice" 3 body)) "key-alice"
       = (Ok tasks, snd (put_todos Session.db "key-alice" 3 body))
       /\ In todo tasks
       /\ (forall t, In t tasks -> Todo.id t = 3 -> t = todo).
Proof.
  intros body todo. split; [reflexivity|].
  exact (proj2 (X12_list_shows_the_task_update_returned Session.db
                  (snd (put_todos Session.db "key-alice" 3 body)) "key-alice" 3
                  body todo Session_db_ok eq_refl)).
Defined.

(** ** Delete followed by List *)

(** X13. On a database satisfying [db_ok], a Delete that succeeds takes
    exactly the tasks with that identifier out of the caller's List: the
    List after it holds the tasks of the List before it whose identifier
    is another one, and nothing else. *)
Theorem X13_delete_removes_the_task_from_the_list
    (db db' : DB) (api_key message : string) (todo_id : Z) :
  db_ok db ->
  delete_todos db api_key todo_id = (Ok message, db') ->
  exists before after,
    get_todos db api_key = (Ok before, db)
    /\ get_todos db' api_key = (Ok after, db')
    /\ (forall t, In t after <-> In t before /\ Todo.id t <> todo_id)
    /\ (exists t, In t before /\ Todo.id t = todo_id).
Proof.
  intros Hok Hdel.
  assert (Hok' : db_ok db').
  { assert (E : handle db (DeleteTodos api_key todo_id) = db')
      by (simpl; now rewrite Hdel).
    rewrite <- E. now apply handle_ok. }
  unfold delete_todos in Hdel.
  destruct (get_current_user db api_key) as [user|e] eqn:Hu; [|discriminate].
  unfold delete_todo, select_todo in Hdel.
  destruct (fits_int64 todo_id); [|discriminate].
  destruct (lookup_todo db todo_id (u_id user)) as [row|] eqn:Hsel; [|discriminate].
  injection Hdel as _ <-.
  assert (Hu' : get_current_user (delete_todos_by_id db todo_id) api_key = Ok user)
    by exact Hu.
  destruct (get_todos_ok db api_key user Hu Hok) as [before [Hget Hmap]].
  destruct (get_todos_ok _ api_key user Hu' Hok') as [after [Hget' Hmap']].
  pose proof (map_Some_In _ _ _ Hmap) as HIn.
  pose proof (map_Some_In _ _ _ Hmap') as HIn'.
  exists before, after. split; [exact Hget|]. split; [exact Hget'|]. split.
  - intros t. rewrite HIn, HIn'. split.
    + intros [r [Hr Hview]]. apply read_todos_In in Hr. destruct Hr as [Hr Hown].
      apply delete_todos_by_id_In in Hr. destruct Hr as [Hr Hid].
      split.
      * exists r. split; [|exact Hview]. apply read_todos_In. auto.
      * apply Todo_of_row_id in Hview. congruence.
    + intros [[r [Hr Hview]] Hid]. apply read_todos_In in Hr. destruct Hr as [Hr Hown].
      exists r. split; [|exact Hview]. apply read_todos_In. split; [|exact Hown].
      apply delete_todos_by_id_In. split; [exact Hr|].
      apply Todo_of_row_id in Hview. congruence.
  - apply lookup_todo_Some in Hsel. destruct Hsel as (Hin & Hid & Hown).
    pose proof (ok_status _ Hok) as Hst. rewrite Forall_forall in Hst.
    specialize (Hst row Hin). cbv beta in Hst.
    destruct (Todo_of_row row) as [t|] eqn:Hview.
    + exists t. split.
      * apply HIn. exists row. split; [|exact Hview]. apply read_todos_In. auto.
      * apply Todo_of_row_id in Hview. congruence.
    + unfold Todo_of_row in Hview.
      destruct (status_of_text (t_status row)); [discriminate|contradiction].
Qed.

(** Alice deletes "Buy milk"; "Pay rent" stays on her list. *)
Lemma X13_witness :
  exists before after,
    get_todos Session.db "key-alice" = (Ok before, Session.db)
    /\ get_todos (snd (delete_todos Session.db "key-alice" 1)) "key-alice"
       = (Ok after, snd (delete_todos Session.db "key-alice" 1))
    /\ (forall t, In t after <-> In t before /\ Todo.id t <> 1)
    /\ (exists t, In t before /\ Todo.id t = 1).
Proof.
  exact (X13_delete_removes_the_task_from_the_list Session.db
           (snd (delete_todos Session.db "key-alice" 1)) "key-alice"
           "Todo deleted successfully" 1 Session_db_ok eq_refl).
Defined.

(** ** Keys and users *)

(** X14. On a database satisfying [db_ok], two different API keys that
    both resolve belong to users with different identifiers, and so to
    disjoint sets of tasks. *)
Theorem X14_different_keys_resolve_to_different_users
    (db : DB) (key1 key2 : string) (user1 user2 : user_row) :
  db_ok db ->
  get_current_user db key1 = Ok user1 ->
  get_current_user db key2 = Ok user2 ->
  key1 <> key2 ->
  u_id user1 <> u_id user2
  /\ (forall r, In r (read_todos db user1) -> ~ In r (read_todos db user2)).
Proof.
  intros Hok H1 H2 Hne.
  apply get_current_user_Ok in H1. destruct H1 as [Hin1 Hk1].
  apply get_current_user_Ok in H2. destruct H2 as [Hin2 Hk2].
  assert (Hid : u_id user1 <> u_id user2).
  { intros E. apply Hne. rewrite <- Hk1, <- Hk2. f_equal.
    pose proof (ok_user_ids _ Hok) as Hnd. clear Hk1 Hk2 Hne.
    induction (users db) as [|u us IH]; simpl in *; [easy|].
    inversion Hnd as [|? ? Hn Hl]; subst.
    destruct Hin1 as [->|Hin1], Hin2 as [->|Hin2]; trivial.
    - elim Hn. rewrite E. now apply in_map.
    - elim Hn. rewrite <- E. now apply in_map.
    - auto. }
  split; [exact Hid|].
  intros r Hr1 Hr2. apply read_todos_In in Hr1. apply read_todos_In in Hr2.
  destruct Hr1 as [_ Ho1]. destruct Hr2 as [_ Ho2]. congruence.
Qed.

Lemma X14_witness :
  u_id Session.alice_row <> u_id Session.bob_row
  /\ (forall r, In r (read_todos Session.db Session.alice_row) ->
                ~ In r (read_todos Session.db Session.bob_row)).
Proof.
  apply (X14_different_keys_resolve_to_different_users Session.db
           "key-alice" "key-bob" Session.alice_row Session.bob_row
           Session_db_ok eq_refl eq_refl).
  discriminate.
Defined.

(** ** Refusals and the existence of a task *)

(** X15. What Update and Delete answer a caller who does not own the task
    they name is the same whether the identifier is unused or belongs to
    somebody else's task, and nothing is committed.  [db] and [db'] are
    any two databases in which the caller owns no task [todo_id]: the
    responses are equal.  For an identifier that is a signed 64-bit
    integer the response is 404 "Todo not found" (for Update, when the
    status of the body, if given, is one of the two literals). *)
Theorem X15_refusals_do_not_tell_whether_a_task_exists
    (db db' : DB) (api_key api_key' : string) (user user' : user_row)
    (todo_id : Z) (body : update_body) :
  get_current_user db api_key = Ok user ->
  get_current_user db' api_key' = Ok user' ->
  ~ owns db user todo_id ->
  ~ owns db' user' todo_id ->
  (fits_int64 todo_id = true ->
   pb_status body = Absent \/ pb_status body = Null
   \/ pb_status body = Str "pending" \/ pb_status body = Str "completed" ->
   put_todos db api_key todo_id body
   = (Raise (HTTPException 404 "Todo not found"), db))
  /\ (fits_int64 todo_id = true ->
      delete_todos db api_key todo_id
      = (Raise (HTTPException 404 "Todo not found"), db))
  /\ snd (put_todos db api_key todo_id body) = db
  /\ snd (delete_todos db api_key todo_id) = db
  /\ fst (put_todos db api_key todo_id body)
     = fst (put_todos db' api_key' todo_id body)
  /\ fst (delete_todos db api_key todo_id)
     = fst (delete_todos db' api_key' todo_id).
Proof.
  intros Hu Hu' Hno Hno'.
  rewrite (put_todos_not_owned _ _ _ _ body Hu Hno).
  rewrite (put_todos_not_owned _ _ _ _ body Hu' Hno').
  rewrite (delete_todos_not_owned _ _ _ _ Hu Hno).
  rewrite (delete_todos_not_owned _ _ _ _ Hu' Hno').
  unfold refusal. repeat split.
  - intros Hfit Hst. rewrite Hfit.
    destruct (parse_TodoUpdate_literal body Hst) as [st [-> _]]. reflexivity.
  - intros Hfit. now rewrite Hfit.
Qed.

(** Alice asks for task 2: before Bob created it, and once it is Bob's. *)
Lemma X15_witness :
  let body := mk_update_body (Str "mine now") Absent (Str "completed") in
  (forall r, In r (todos Session.db_before) -> t_id r <> 2)
  /\ (exists r, In r (todos Session.db) /\ t_id r = 2
                /\ t_user_id r = u_id Session.bob_row)
  /\ put_todos Session.db_before "key-alice" 2 body
     = (Raise (HTTPException 404 "Todo not found"), Session.db_before)
  /\ put_todos Session.db "key-alice" 2 body
     = (Raise (HTTPException 404 "Todo not found"), Session.db)
  /\ delete_todos Session.db_before "key-alice" 2
     = (Raise (HTTPException 404 "Todo not found"), Session.db_before)
  /\ delete_todos Session.db "key-alice" 2
     = (Raise (HTTPException 404 "Todo not found"), Session.db)
  /\ fst (put_todos Session.db_before "key-alice" 2 body)
     = fst (put_todos Session.db "key-alice" 2 body)
  /\ fst (delete_todos Session.db_before "key-alice" 2)
     = fst (delete_todos Session.db "key-alice" 2).
Proof.
  intros body.
  assert (Hno : ~ owns Session.db_before Session.alice_row 2).
  { intros [_ [r ([<-|[]] & Hid & _)]]. discriminate. }
  assert (Hno' : ~ owns Session.db Session.alice_row 2).
  { intros [_ [r ([<-|[<-|[<-|[]]]] & Hid & Hown)]]; discriminate. }
  assert (Hst : pb_status body = Absent \/ pb_status body = Null
                \/ pb_status body = Str "pending"
                \/ pb_status body = Str "completed")
    by (right; right; right; reflexivity).
  destruct (X15_refusals_do_not_tell_whether_a_task_exists
              Session.db_before Session.db
              "key-alice" "key-alice" Session.alice_row Session.alice_row 2 body
              eq_refl eq_refl Hno Hno') as (Hput & Hdel & _ & _ & Hsame & Hsame').
  destruct (X15_refusals_do_not_tell_whether_a_task_exists
              Session.db Session.db_before
              "key-alice" "key-alice" Session.alice_row Session.alice_row 2 body
              eq_refl eq_refl Hno' Hno) as (Hput' & Hdel' & _).
  split; [|split].
  - intros r [<-|[]]. discriminate.
  - eexists. split; [right; left; reflexivity|]. split; reflexivity.
  - repeat split; auto.
Defined.
